(** * React 19 demo components: a shallow embedding

    The repository is a set of small React function components.  Each
    component is embedded as a pure [render] function from its state cells
    to a virtual DOM tree whose event-handler attributes compute the next
    state, following the closures of the JavaScript source.  The pieces of
    the host runtime the components rely on (typeof, truthiness,
    Array.prototype.join, interval timers, context propagation, promise
    outcomes) are modelled next to the components that use them. *)

From Stdlib Require Import ZArith.
From stdpp Require Import gmap strings list pretty.

Set Warnings "-register-all".

Local Open Scope string_scope.
Local Open Scope list_scope.

(** ** JavaScript values *)

Module Js.

(** The part of a DOM event the handlers read: [evt.target.value] and
    [evt.target.checked]. *)
Record Event := mkEvent { target_value : string; target_checked : bool }.

Inductive value :=
| VUndefined
| VNull
| VBool (b : bool)
| VNum (n : Z)
| VStr (s : string)
| VEvent (e : Event).

(** [typeof v] *)
Definition typeof (v : value) : string :=
  match v with
  | VUndefined => "undefined"
  | VNull => "object"
  | VBool _ => "boolean"
  | VNum _ => "number"
  | VStr _ => "string"
  | VEvent _ => "object"
  end.

(** ToBoolean *)
Definition truthy (v : value) : bool :=
  match v with
  | VUndefined | VNull => false
  | VBool b => b
  | VNum n => negb (n =? 0)%Z
  | VStr s => negb (String.eqb s "")
  | VEvent _ => true
  end.

(** [!v] *)
Definition not (v : value) : value := VBool (negb (truthy v)).

(** [arr.join(sep)] on an array of strings *)
Fixpoint join (sep : string) (arr : list string) : string :=
  match arr with
  | [] => ""
  | [x] => x
  | x :: rest => x +:+ sep +:+ join sep rest
  end.

End Js.

(** ** Virtual DOM *)

Module VDom.

Section Nodes.
(** [S] is the state of the component that owns the handlers. *)
Context {S : Type}.

Inductive attr :=
| AStr (s : string)
| ABool (b : bool)
| AHandler (h : Js.Event -> S).

(** What a component returns.  [Provider] and [Component] are resolved
    by [render]; a [Component] body receives the value that
    [useContext] returns at its position in the tree. *)
Inductive node :=
| Text (s : string)
| Null
| Elem (tag : string) (attrs : list (string * attr)) (children : list node)
| Provider (v : Js.value) (children : list node)
| Component (body : Js.value -> node).

(** What ends up in the document. *)
Inductive html :=
| HText (s : string)
| HElem (tag : string) (attrs : list (string * attr)) (children : list html).

(** A JSX expression child [{v}]: strings and numbers become text,
    booleans, null and undefined render nothing. *)
Definition expr (v : Js.value) : node :=
  match v with
  | Js.VStr s => Text s
  | Js.VNum n => Text (pretty n)
  | _ => Null
  end.

Fixpoint render (ctx : Js.value) (n : node) : list html :=
  match n with
  | Text s => [HText s]
  | Null => []
  | Elem tag attrs children =>
      [HElem tag attrs (flat_map (render ctx) children)]
  | Provider v children => flat_map (render v) children
  | Component body => render ctx (body ctx)
  end.

Fixpoint textContent (d : html) : string :=
  match d with
  | HText s => s
  | HElem _ _ children => String.concat "" (map textContent children)
  end.

Definition tagName (d : html) : option string :=
  match d with
  | HText _ => None
  | HElem tag _ _ => Some tag
  end.

Fixpoint assoc (k : string) (l : list (string * attr)) : option attr :=
  match l with
  | [] => None
  | (k', a) :: l => if String.eqb k k' then Some a else assoc k l
  end.

Definition getAttr (k : string) (d : html) : option attr :=
  match d with
  | HText _ => None
  | HElem _ attrs _ => assoc k attrs
  end.

Definition attrIs (k v : string) (d : html) : bool :=
  match getAttr k d with
  | Some (AStr s) => String.eqb s v
  | _ => false
  end.

(** All nodes of a tree satisfying [p], in document order. *)
Fixpoint select (p : html -> bool) (d : html) : list html :=
  (if p d then [d] else []) ++
  match d with
  | HText _ => []
  | HElem _ _ children => flat_map (select p) children
  end.

Definition querySelectorAll (p : html -> bool) (doc : list html) : list html :=
  flat_map (select p) doc.

Definition isTag (tag : string) (d : html) : bool :=
  match d with
  | HText _ => false
  | HElem t _ _ => String.eqb t tag
  end.

Definition isTagWithText (tag text : string) (d : html) : bool :=
  isTag tag d && String.eqb (textContent d) text.

(** Dispatching an event to the first node selected by [p]: the handler
    stored under [name] computes the next state; with no such node or
    handler the state [st] is kept. *)
Definition dispatch (p : html -> bool) (name : string) (evt : html -> Js.Event)
    (doc : list html) (st : S) : S :=
  match querySelectorAll p doc with
  | d :: _ =>
      match getAttr name d with
      | Some (AHandler h) => h (evt d)
      | _ => st
      end
  | [] => st
  end.

(** The string attribute [k] of a node, [""] when absent. *)
Definition attrString (k : string) (d : html) : string :=
  match getAttr k d with
  | Some (AStr s) => s
  | _ => ""
  end.

(** A click: the handlers of this repository ignore its contents. *)
Definition clickEvent (target : html) : Js.Event :=
  {| Js.target_value := attrString "value" target; Js.target_checked := false |}.

(** The change event of a checkbox that the user has just switched to
    [checked]: [evt.target] is the input element. *)
Definition changeEvent (checked : bool) (target : html) : Js.Event :=
  {| Js.target_value := attrString "value" target;
     Js.target_checked := checked |}.

(** The text of the [<label htmlFor=id>] of the element with this id. *)
Definition labelFor (id : string) (doc : list html) : option string :=
  match querySelectorAll (fun d => isTag "label" d && attrIs "htmlFor" id d) doc with
  | d :: _ => Some (textContent d)
  | [] => None
  end.

End Nodes.

Arguments attr : clear implicits.
Arguments node : clear implicits.
Arguments html : clear implicits.

End VDom.

Import VDom.

(** ** custom-hooks/useToggle.js *)

Module UseToggle.

(** [toggleVal] as closed over the [value] of the render that created it;
    the result is the argument of [setValue]. *)
Definition toggleVal (value : Js.value) (val : Js.value) : Js.value :=
  if negb (String.eqb (Js.typeof val) "boolean") then
    Js.not value
  else
    val.

(** [useToggle(defaultVal)] on first render: the stored value. *)
Definition useToggle (defaultVal : Js.value) : Js.value := defaultVal.

End UseToggle.

(** ** custom-hooks/CustomHooks.jsx *)

Module CustomHooks.

Record State := mkState { value : Js.value; data : Js.value }.

Definition init : State :=
  {| value := UseToggle.useToggle (Js.VBool true);
     data := UseToggle.useToggle (Js.VBool true) |}.

Definition heading : string := "Customs Hooks in ReactJs 🪝".

(** The [console.log] call has no effect on the output. *)
Definition CustomHooks (st : State) : node State :=
  let toggleValue v := {| value := UseToggle.toggleVal (value st) v; data := data st |} in
  let setData v := {| value := value st; data := UseToggle.toggleVal (data st) v |} in
  Elem "div" []
    [ Elem "button" [("onClick", AHandler (fun e => toggleValue (Js.VEvent e)))]
        [Text "Toggle Heading"];
      Elem "button" [("onClick", AHandler (fun _ => toggleValue (Js.VBool true)))]
        [Text "Show Heading"];
      Elem "button" [("onClick", AHandler (fun _ => toggleValue (Js.VBool false)))]
        [Text "Hide Heading"];
      (if Js.truthy (value st) then Elem "h2" [] [Text heading] else Null);
      Elem "hr" [] [];
      Elem "button" [("onClick", AHandler (fun e => setData (Js.VEvent e)))]
        [Text "Toggle 2nd Heading"];
      Elem "button" [("onClick", AHandler (fun _ => setData (Js.VBool true)))]
        [Text "Show 2nd Heading"];
      Elem "button" [("onClick", AHandler (fun _ => setData (Js.VBool false)))]
        [Text "Hide 2nd Heading"];
      (if Js.truthy (data st) then Elem "h2" [] [Text "Second Heading.."] else Null) ].

Definition document (st : State) : list (html State) :=
  render Js.VUndefined (CustomHooks st).

(** Clicking the button labelled [label]. *)
Definition click (label : string) (evt : Js.Event) (st : State) : State :=
  dispatch (isTagWithText "button" label) "onClick" (fun _ => evt) (document st) st.

(** Is the first heading on screen? *)
Definition showsHeading (st : State) : bool :=
  match querySelectorAll (isTagWithText "h2" heading) (document st) with
  | [] => false
  | _ :: _ => true
  end.

End CustomHooks.

(** ** InputHandling.jsx *)

Module InputHandling.

Record State := mkState { skills : list string; gender : string; city : string }.

Definition init : State := {| skills := []; gender := "Male"; city := "Kolkata" |}.

(** [onHandleChange(evt)] closed over [skills]: the argument of
    [setSkills].  The [console.log] call has no effect on the state. *)
Definition onHandleChange (skills : list string) (evt : Js.Event) : list string :=
  let skill := Js.target_value evt in
  if Js.target_checked evt then
    skills ++ [skill]
  else
    filter (fun s => s ≠ skill) skills.

Definition checkbox (st : State) (id value label : string) : list (node State) :=
  [ Elem "input"
      [ ("type", AStr "checkbox"); ("id", AStr id); ("value", AStr value);
        ("onChange", AHandler (fun evt =>
           {| skills := onHandleChange (skills st) evt;
              gender := gender st; city := city st |})) ] [];
    Elem "label" [("htmlFor", AStr id)] [Text label];
    Elem "br" [] [] ].

Definition radio (st : State) (id value label : string) : list (node State) :=
  [ Elem "input"
      [ ("type", AStr "radio"); ("checked", ABool (String.eqb (gender st) value));
        ("value", AStr value); ("name", AStr "gender"); ("id", AStr id);
        ("onChange", AHandler (fun evt =>
           {| skills := skills st; gender := Js.target_value evt; city := city st |})) ] [];
    Elem "label" [("htmlFor", AStr id)] [Text label] ].

Definition opt (value : string) : node State :=
  Elem "option" [("value", AStr value)] [Text value].

Definition InputHandling (st : State) : node State :=
  Elem "div" []
    ( [ Elem "h3" [] [Text "Select your SKILLS✅"] ]
      ++ checkbox st "nextjs" "NextJs15" "NextJs"
      ++ checkbox st "react" "React19" "React"
      ++ checkbox st "vuejs" "VueJs" "Vue.js"
      ++ checkbox st "nodejs" "NodeJs" "Node.js"
      ++ checkbox st "mongodb" "MongoDB" "MongoDB"
      ++ [ Elem "hr" [] [];
           Elem "h3" [] [Text "Select GENDER 🔘"] ]
      ++ radio st "male" "Male" "Male💪🏻🔥" ++ [ Elem "br" [] [] ]
      ++ radio st "female" "Female" " Female♀️🍽️" ++ [ Elem "br" [] [] ]
      ++ radio st "other" "Other" " Other🏳️‍🌈💅🏻"
      ++ [ Elem "hr" [] [];
           Elem "br" [] [];
           Elem "h3" [] [Text "Select CITY📍"];
           Elem "select"
             [ ("defaultValue", AStr "Kolkata");
               ("onChange", AHandler (fun evt =>
                  {| skills := skills st; gender := gender st;
                     city := Js.target_value evt |})) ]
             [ opt "Kolkata"; opt "Hyderabad"; opt "Delhi";
               opt "Chennai"; opt "Pune" ];
           Elem "hr" [] [];
           Elem "br" [] [];
           Elem "h2" [] [Text "Skills: "; Text (Js.join ", " (skills st))];
           Elem "h2" [] [Text "Gender : "; Text (gender st)];
           Elem "h2" [] [Text "City: "; Text (city st)] ] ).

Definition document (st : State) : list (html State) :=
  render Js.VUndefined (InputHandling st).

(** The user switches the checkbox with this id to [checked]. *)
Definition toggleCheckbox (id : string) (checked : bool) (st : State) : State :=
  dispatch (fun d => isTag "input" d && attrIs "type" "checkbox" d && attrIs "id" id d)
    "onChange" (changeEvent checked) (document st) st.

(** The text of the first of the three [<h2>] lines at the bottom. *)
Definition skillsLine (st : State) : string :=
  match querySelectorAll (isTag "h2") (document st) with
  | d :: _ => textContent d
  | [] => ""
  end.

(** The five checkboxes of the group: id and [value] attribute. *)
Definition checkboxes : list (string * string) :=
  [ ("nextjs", "NextJs15"); ("react", "React19"); ("vuejs", "VueJs");
    ("nodejs", "NodeJs"); ("mongodb", "MongoDB") ].

End InputHandling.

(** ** The [useFetch] hook of the custom-hooks notes (useFetch.js) *)

Module UseFetch.

(** Parsed JSON; [JNull] is also the initial value of the [data] cell. *)
Inductive json :=
| JNull
| JBool (b : bool)
| JNum (n : Z)
| JStr (s : string)
| JArr (items : list json)
| JObj (fields : list (string * json)).

(** A thrown [Error]; only [error.message] is read. *)
Record Error := mkError { message : string }.

(** How an awaited promise settles. *)
Inductive settled (A : Type) :=
| Fulfilled (a : A)
| Rejected (e : Error).
Arguments Fulfilled {A} a.
Arguments Rejected {A} e.

(** A [Response]: its [ok] flag and how [response.json()] settles. *)
Record Response := mkResponse { ok : bool; json_body : settled json }.

(** The three state cells; [None] is [null] in the [error] cell. *)
Record State := mkState { data : json; error : option string; loading : bool }.

Definition init : State := {| data := JNull; error := None; loading := true |}.

(** Code of an async function body: it updates the cells and either
    completes with a value or throws. *)
Definition M (A : Type) : Type := State -> State * (Error + A).

#[export] Instance M_ret : MRet M := fun A a st => (st, inr a).
#[export] Instance M_bind : MBind M := fun A B f m st =>
  match m st with
  | (st', inr a) => f a st'
  | (st', inl e) => (st', inl e)
  end.

Definition throw {A} (e : Error) : M A := fun st => (st, inl e).

Definition await {A} (p : settled A) : M A :=
  match p with
  | Fulfilled a => mret a
  | Rejected e => throw e
  end.

(** [try { body } catch (e) { handler e } finally { fin }] *)
Definition try_catch_finally {A} (body : M A) (handler : Error -> M A) (fin : M unit)
    : M A :=
  fun st =>
    let '(st1, r1) :=
      match body st with
      | (st', inl e) => handler e st'
      | ok => ok
      end in
    match fin st1 with
    | (st2, inl e) => (st2, inl e)
    | (st2, inr _) => (st2, r1)
    end.

Definition setData (v : json) : M unit :=
  fun st => ({| data := v; error := error st; loading := loading st |}, inr ()).
Definition setError (v : string) : M unit :=
  fun st => ({| data := data st; error := Some v; loading := loading st |}, inr ()).
Definition setLoading (v : bool) : M unit :=
  fun st => ({| data := data st; error := error st; loading := v |}, inr ()).

Section Hook.
(** The network: how [fetch(url)] settles. *)
Variable fetch : string -> settled Response.

Definition fetchData (url : string) : M unit :=
  try_catch_finally
    (response ← await (fetch url);
     (if negb (ok response) then
        throw (mkError "Network response was not ok")
      else mret ());;
     result ← await (json_body response);
     setData result)
    (fun error => setError (message error))
    (setLoading false).

(** The effect of [useEffect(..., [url])]: the cells once [fetchData()]
    has run to completion. *)
Definition effect (url : string) (st : State) : State := fst (fetchData url st).

(** The hook's cells after the first render's effect. *)
Definition useFetch (url : string) : State := effect url init.
End Hook.

(** What a failed call throws at the [catch]: the rejection of [fetch],
    the [Error] thrown for a response that is not ok. *)
Definition failure (r : settled Response) : option Error :=
  match r with
  | Rejected e => Some e
  | Fulfilled resp =>
      if ok resp then None else Some (mkError "Network response was not ok")
  end.

(** Three networks for the call of the notes: the connection fails, the
    server answers 404, the server answers with a list of posts. *)
Definition posts : json := JArr [JObj [("id", JNum 1); ("title", JStr "hello")]].
Definition down (_ : string) : settled Response :=
  Rejected (mkError "Failed to fetch").
Definition not_found (_ : string) : settled Response :=
  Fulfilled (mkResponse false (Fulfilled JNull)).
Definition served (_ : string) : settled Response :=
  Fulfilled (mkResponse true (Fulfilled posts)).

End UseFetch.

(** ** PropsTask/DigitalClock.jsx *)

Module DigitalClock.

(** The component's one state cell, [currTime]. *)
Definition State := string.

(** An interval timer of the page.  The callback is handed what
    [new Date().toLocaleTimeString()] returns when it fires and the
    state of the clock component. *)
Record Timer := mkTimer { callback : string -> State -> State; delay : Z }.

Record Window := mkWindow { timers : gmap nat Timer; next_handle : nat }.

Definition setInterval (cb : string -> State -> State) (ms : Z) (w : Window)
    : nat * Window :=
  (next_handle w,
   {| timers := <[next_handle w := mkTimer cb ms]> (timers w);
      next_handle := S (next_handle w) |}).

Definition clearInterval (handle : nat) (w : Window) : Window :=
  {| timers := delete handle (timers w); next_handle := next_handle w |}.

(** The timer callback: [setCurrTime(new Date().toLocaleTimeString())]. *)
Definition tick : string -> State -> State := fun now _ => now.

(** The body of the [useEffect(..., [])] call: it returns its cleanup. *)
Definition effect (w : Window) : (Window -> Window) * Window :=
  let '(currTimeInterval, w) := setInterval tick 1000 w in
  (clearInterval currTimeInterval, w).

Definition DigitalClock (clockClr : string) (currTime : State) : node State :=
  Elem "div" []
    [ Elem "h3" [] [Text "Digital Clock ⌚"];
      Elem "h1" [("style.color", AStr clockClr)] [Text currTime] ].

(** A mounted instance: its state cell and the pending cleanup. *)
Record Instance := mkInstance { currTime : State; cleanup : Window -> Window }.

Record Page := mkPage { window : Window; clock : option Instance }.

Inductive event :=
| Mount (now : string)              (* first render, then the effect runs *)
| Rerender                          (* the effect has no dependencies: it is skipped *)
| Fire (handle : nat) (now : string) (* a timer of the page fires *)
| Unmount                           (* React runs the cleanup *)
| Foreign (ms : Z).                 (* other code of the page sets a timer *)

Definition step (ev : event) (p : Page) : Page :=
  match ev, clock p with
  | Mount now, None =>
      let '(cl, w) := effect (window p) in
      {| window := w; clock := Some {| currTime := now; cleanup := cl |} |}
  | Fire handle now, Some inst =>
      match timers (window p) !! handle with
      | Some t =>
          {| window := window p;
             clock := Some {| currTime := callback t now (currTime inst);
                              cleanup := cleanup inst |} |}
      | None => p
      end
  | Unmount, Some inst => {| window := cleanup inst (window p); clock := None |}
  | Foreign ms, _ =>
      {| window := (setInterval (fun _ st => st) ms (window p)).2; clock := clock p |}
  | _, _ => p
  end.

Definition run (evs : list event) (p : Page) : Page :=
  foldl (fun p ev => step ev p) p evs.

(** Events other than mounting and unmounting the clock. *)
Definition ambient (ev : event) : bool :=
  match ev with
  | Mount _ | Unmount => false
  | _ => true
  end.

(** Handles are handed out in increasing order. *)
Definition wf (w : Window) : Prop :=
  ∀ h, h ∈ dom (timers w) → h < next_handle w.


(** Timers set by other code of the page. *)
Definition foreign (ev : event) : nat :=
  match ev with
  | Foreign _ => 1
  | _ => 0
  end.

(** While the clock is mounted: its timer [h] is registered with the
    tick callback and a 1000 ms period, its cleanup clears [h], and the
    page has [n] timers. *)
Definition mounted_inv (h n : nat) (p : Page) : Prop :=
  wf (window p)
  ∧ timers (window p) !! h = Some (mkTimer tick 1000)
  ∧ size (timers (window p)) = n
  ∧ ∃ now, clock p = Some {| currTime := now; cleanup := clearInterval h |}.

(** Once it is unmounted: [h] is not registered and cannot be handed out
    again. *)
Definition unmounted_inv (h n : nat) (p : Page) : Prop :=
  wf (window p)
  ∧ (h ∉ dom (timers (window p)))
  ∧ h < next_handle (window p)
  ∧ size (timers (window p)) = n
  ∧ clock p = None.

(** A page with no timer yet, and two stretches of its life: one while the
    clock is mounted, one after it is gone. *)
Definition blank : Page :=
  {| window := {| timers := ∅; next_handle := 0 |}; clock := None |}.
Definition while_mounted : list event :=
  [Fire 0 "10:00:01"; Rerender; Foreign 250; Fire 0 "10:00:02"].
Definition afterwards : list event :=
  [Fire 0 "10:00:03"; Foreign 10; Rerender].

End DigitalClock.

(** ** UseFormStatus.jsx *)

Module UseFormStatus.

(** The status React keeps for the enclosing [<form>]: is its action,
    the async [handleSubmit], still running? *)
Definition State := bool.

(** [CustomForm], with the [pending] that [useFormStatus()] returns.
    The [console.log] call has no effect on the output. *)
Definition CustomForm (pending : bool) : node State :=
  Elem "div" []
    [ Elem "h3" [] [Text "Custom Form 📃"];
      Elem "input" [("type", AStr "text"); ("placeholder", AStr "Enter your name")] [];
      Elem "br" [] [];
      Elem "br" [] [];
      Elem "input" [("type", AStr "password"); ("placeholder", AStr "Enter your password")] [];
      Elem "br" [] [];
      Elem "br" [] [];
      Elem "button" [("disabled", ABool pending); ("type", AStr "submit")]
        [Text (if pending then "Submitting..." else "Submit")] ].

(** Submitting the form starts [handleSubmit]: the form is pending until
    the 1500 ms promise resolves. *)
Definition UseFormStatus (pending : State) : node State :=
  Elem "div" []
    [ Elem "h2" [] [Text "UseFormStatus Hook in ReactJs 19"];
      Elem "form" [("action", AHandler (fun _ => true))]
        [CustomForm pending] ].

Definition document (pending : State) : list (html State) :=
  render Js.VUndefined (UseFormStatus pending).

End UseFormStatus.

(** ** UseTransition.jsx *)

Module UseTransition.

(** The [pending] flag of [useTransition()]. *)
Definition State := bool.

(** [handleSubmit] starts a transition: [pending] is true until the
    2000 ms promise of the async callback resolves. *)
Definition handleSubmit (_ : Js.Event) : State := true.

Definition UseTransition (pending : State) : node State :=
  Elem "div" []
    [ Elem "h3" [] [Text "useTransition( ) - React1️⃣9️⃣"];
      (if pending then Elem "h1" [] [Text "LOADING... ⌛"] else Null);
      Elem "button" [("disabled", ABool pending); ("onClick", AHandler handleSubmit)]
        [Text (if pending then "Submitting..." else "Submit")] ].

Definition document (pending : State) : list (html State) :=
  render Js.VUndefined (UseTransition pending).

End UseTransition.

(** The submit button of a document: its [disabled] attribute and label. *)
Module SubmitButton.

Definition disabled {S} (doc : list (html S)) : option bool :=
  match querySelectorAll (isTag "button") doc with
  | d :: _ =>
      match getAttr "disabled" d with
      | Some (ABool b) => Some b
      | _ => None
      end
  | [] => None
  end.

Definition label {S} (doc : list (html S)) : option string :=
  match querySelectorAll (isTag "button") doc with
  | d :: _ => Some (textContent d)
  | [] => None
  end.

End SubmitButton.

(** ** context/: ParentCtxt.jsx, ClassComp.jsx, StudentComp.jsx, SubjectComp.jsx *)

Module Context.

Section Components.
Context {S : Type}.

Definition box (colour : string) : list (string * attr S) :=
  [("style", AStr ("background-color: " +:+ colour +:+
                   "; padding: 10px; color: brown; border-radius: 5px"))].

(** The function body of [SubjectComp]; [subject] is what
    [useContext(SubjectCtxt)] returns. *)
Definition SubjectComp_body (subject : Js.value) : node S :=
  Elem "div" (box "gray")
    [ Elem "h2" [] [Text "Subject Component"];
      Elem "p" [] [Text "Subject:"; expr subject] ].

Definition SubjectComp : node S := Component SubjectComp_body.

Definition StudentComp : node S :=
  Component (fun _ =>
    Elem "div" (box "green")
      [ Elem "h2" [] [Text "Student Component"];
        SubjectComp ]).

Definition ClassComp : node S :=
  Component (fun _ =>
    Elem "div" (box "skyblue")
      [ Elem "h2" [] [Text "Class Component"];
        StudentComp ]).
End Components.

(** The state cell of [ParentCtxt]. *)
Definition State := string.

Definition init : State := "".

Definition opt (value label : string) : node State :=
  Elem "option" [("value", AStr value)] [Text label].

Definition resetLabel : string := "Reset Sub.🪄".

Section Parent.
(** [College.jsx] is left open: [<College />] is whatever tree that
    component returns. *)
Variable College : node State.

Definition ParentCtxt (subject : State) : node State :=
  Elem "div" (box "yellow")
    [ Provider (Js.VStr subject)
        [ Elem "select"
            [ ("value", AStr subject);
              ("onChange", AHandler (fun evt => Js.target_value evt)) ]
            [ opt "" "Select Subject";
              opt "Mathematics" "Mathematics";
              opt "Science" "Science";
              opt "Social Studies" "Social Studies" ];
          Elem "h1" [] [Text "Context API"];
          Elem "button"
            [ ("style", AStr "margin: 5px");
              ("onClick", AHandler (fun _ => "")) ]
            [Text resetLabel];
          College ] ].

(** [dflt] is the default value given to [createContext] in
    [context.js], left open as well.  [ParentCtxt] and [SubjectComp] both
    import [SubjectCtxt] from "./context": there is one context. *)
Definition document (dflt : Js.value) (subject : State) : list (html State) :=
  render dflt (ParentCtxt subject).

Definition reset (dflt : Js.value) (subject : State) : State :=
  dispatch (isTagWithText "button" resetLabel) "onClick"
    clickEvent (document dflt subject) subject.
End Parent.

(** Where components are mounted.  [mounted ctx n ctx' body]: rendering
    [n] at a position where [useContext] returns [ctx] calls the function
    component [body] at a position where [useContext] returns [ctx']. *)
Inductive mounted {S} : Js.value -> node S -> Js.value -> (Js.value -> node S) -> Prop :=
| mounted_here ctx body :
    mounted ctx (Component body) ctx body
| mounted_elem ctx tag attrs children c ctx' body :
    c ∈ children -> mounted ctx c ctx' body ->
    mounted ctx (Elem tag attrs children) ctx' body
| mounted_provider ctx v children c ctx' body :
    c ∈ children -> mounted v c ctx' body ->
    mounted ctx (Provider v children) ctx' body
| mounted_inside ctx f ctx' body :
    mounted ctx (f ctx) ctx' body ->
    mounted ctx (Component f) ctx' body.

(** A tree that contains no [Provider] of the context. *)
Definition transparent {S} (n : node S) : Prop :=
  ∀ ctx ctx' body, mounted ctx n ctx' body -> ctx' = ctx.

(** The nodes of a document, at any depth. *)
Definition nodes {S} (doc : list (html S)) : list (html S) :=
  querySelectorAll (fun _ => true) doc.

(** The text of the paragraphs among these nodes. *)
Definition paragraphs {S} (doc : list (html S)) : list string :=
  map textContent (querySelectorAll (isTag "p") doc).


(** One possible [College]: [ClassComp] below a heading. *)
Definition CollegeExample : node State :=
  Component (fun _ =>
    Elem "div" (box "orange")
      [ Elem "h2" [] [Text "College Component"];
        ClassComp ]).

End Context.

(** ** ArrayState.jsx: the state cells and [updateLastHobby] *)

Module ArrayState.

(** [arr[i] = v] on an array whose holes read as [undefined].  A negative
    [i] names a property that is not an element; an [i] past the end
    extends the array. *)
Definition arrayStore (arr : list Js.value) (i : Z) (v : Js.value) : list Js.value :=
  if (i <? 0)%Z then arr
  else if (i <? Z.of_nat (length arr))%Z then <[Z.to_nat i := v]> arr
  else arr ++ replicate (Z.to_nat i - length arr) Js.VUndefined ++ [v].

Record HobbyDetail := mkHobbyDetail { hobby_name : string; hobby_time : string }.

(** Arrays are objects: the [hobbies] cell holds a reference into the
    heap, and [updateLastHobby] writes through it. *)
Record State := mkState {
  name : string;
  hobbies : nat;
  hobbyDetails : list HobbyDetail;
  heap : gmap nat (list Js.value)
}.

Definition init : State :=
  {| name := "Soumadip 👨🏻‍💻";
     hobbies := 0;
     hobbyDetails :=
       [ mkHobbyDetail "Reading" "Night 🌃";
         mkHobbyDetail "Coding" "Morning 🌄";
         mkHobbyDetail "Movies" "Evening 🌆" ];
     heap := {[ 0 := [Js.VStr "Reading 📚"; Js.VStr "Coding 💻"; Js.VStr "Movies 🎥"] ]} |}.

(** The array a reference points to. *)
Definition deref (h : gmap nat (list Js.value)) (r : nat) : list Js.value :=
  default [] (h !! r).

(** [updateLastHobby(hobby)] closed over [hobbies]: the store through the
    reference, then [setHobbies] with a fresh copy [[...hobbies]]. *)
Definition updateLastHobby (hobby : string) (st : State) : State :=
  let arr := deref (heap st) (hobbies st) in
  let arr := arrayStore arr (Z.of_nat (length arr) - 1) (Js.VStr hobby) in
  let heap1 := <[hobbies st := arr]> (heap st) in
  let copy := fresh (dom heap1) in
  {| name := name st;
     hobbies := copy;
     hobbyDetails := hobbyDetails st;
     heap := <[copy := arr]> heap1 |}.

(** The list held in the [hobbies] cell. *)
Definition hobbiesOf (st : State) : list Js.value := deref (heap st) (hobbies st).

End ArrayState.

(** ** ObjectState.jsx *)

Module ObjectState.

Record Location := mkLocation { city : string; country : string }.

Record Details := mkDetails {
  fullName : string;
  age : Z;
  location : Location;
  skills : list string
}.

Record State := mkState { name : string; details : Details }.

Definition init : State :=
  {| name := "Soumadip 👨🏻‍💻";
     details :=
       {| fullName := "Soumadip Banerjee";
          age := 29;
          location := {| city := "Kolkata"; country := "India" |};
          skills := ["React"; "JavaScript"; "Node.js"] |} |}.

Definition placeholder : string := "update name".

Definition ObjectState (st : State) : node State :=
  let details := details st in
  Elem "div" []
    [ Elem "h2" [] [Text "Updating ObjectsP"; Text "{ }"; Text " in state[ ]."];
      Elem "h3" [] [Text "Name: "; Text (name st)];
      Elem "button"
        [("onClick", AHandler (fun _ => {| name := "Skyy 🧛🏻‍♂️"; details := details |}))]
        [Text "Update Name"];
      Elem "input"
        [ ("type", AStr "text"); ("placeholder", AStr placeholder);
          ("onChange", AHandler (fun evt =>
             (* setDetails({ ...details, fullName: evt.target.value }) *)
             {| name := name st;
                details :=
                  {| fullName := Js.target_value evt;
                     age := age details;
                     location := location details;
                     skills := skills details |} |})) ] [];
      Elem "h3" [] [Text "fullName: "; Text (fullName details)];
      Elem "h3" [] [Text "City: "; Text (city (location details))];
      Elem "h3" [] [Text "Country: "; Text (country (location details))];
      Elem "h3" []
        [ Text "Primary Skill: ";
          expr (from_option Js.VStr Js.VUndefined (skills details !! 0)) ] ].

Definition document (st : State) : list (html State) :=
  render Js.VUndefined (ObjectState st).

(** The user edits the name input: its change event carries the new text
    [v] in [evt.target.value]. *)
Definition typeName (v : string) (st : State) : State :=
  dispatch (fun d => isTag "input" d && attrIs "placeholder" placeholder d)
    "onChange" (fun _ => Js.mkEvent v false) (document st) st.

End ObjectState.

(** * Further components and runs *)

(** ** Runs of CustomHooks *)

Module CustomHooksRun.
Import CustomHooks.

(** A sequence of clicks: each names the text of the button hit and carries
    the event object. *)
Definition clicks (cs : list (string * Js.Event)) (st : State) : State :=
  foldl (fun st c => click c.1 c.2 st) st cs.

Definition isBoolean (v : Js.value) : bool := String.eqb (Js.typeof v) "boolean".

(** The buttons of the first heading and those of the second. *)
Definition firstButtons : list string :=
  ["Toggle Heading"; "Show Heading"; "Hide Heading"].
Definition secondButtons : list string :=
  ["Toggle 2nd Heading"; "Show 2nd Heading"; "Hide 2nd Heading"].

End CustomHooksRun.

(** ** InputHandling.jsx: the page around the component *)

Module InputHandlingPage.
Import InputHandling.

Definition isCheckbox (id : string) {S} (d : html S) : bool :=
  isTag "input" d && attrIs "type" "checkbox" d && attrIs "id" id d.

Definition isRadio (id : string) {S} (d : html S) : bool :=
  isTag "input" d && attrIs "type" "radio" d && attrIs "id" id d.

(** The [value] attribute of the checkbox with this id, from the table. *)
Fixpoint valueOf (table : list (string * string)) (id : string) : option string :=
  match table with
  | [] => None
  | (id', value) :: table => if String.eqb id' id then Some value else valueOf table id
  end.

(** The user picks the radio button with this id: the change event carries
    the [value] attribute of that input. *)
Definition chooseRadio (id : string) (st : State) : State :=
  dispatch (isRadio id) "onChange" (changeEvent true) (document st) st.

(** The values of the [<option>]s of the drop-down. *)
Definition optionValues (st : State) : list string :=
  map (attrString "value") (querySelectorAll (isTag "option") (document st)).

(** The user picks a city in the drop-down: only a listed option can be
    picked, and the change event carries its value. *)
Definition chooseCity (v : string) (st : State) : State :=
  if bool_decide (v ∈ optionValues st) then
    dispatch (isTag "select") "onChange" (fun _ => Js.mkEvent v false) (document st) st
  else st.

(** The values of the radio buttons rendered with [checked] true. *)
Definition checkedRadios (st : State) : list string :=
  map (attrString "value")
    (querySelectorAll
       (fun d => isTag "input" d && attrIs "type" "radio" d &&
                 match getAttr "checked" d with
                 | Some (ABool b) => b
                 | _ => false
                 end)
       (document st)).

(** The checkboxes are uncontrolled: whether a box is ticked is kept by
    the browser, outside the component. *)
Record Page := mkPage { state : State; ticked : gset string }.

Definition initPage : Page := {| state := init; ticked := ∅ |}.

(** A click on the checkbox with this id flips the box and fires its
    change event with the new [checked]. *)
Definition clickCheckbox (id : string) (p : Page) : Page :=
  match querySelectorAll (isCheckbox id) (document (state p)) with
  | [] => p
  | _ :: _ =>
      let checked := bool_decide (id ∉ ticked p) in
      {| state := toggleCheckbox id checked (state p);
         ticked := if checked then {[id]} ∪ ticked p else ticked p ∖ {[id]} |}
  end.

Inductive action :=
| ClickCheckbox (id : string)
| ChooseRadio (id : string)
| ChooseCity (v : string).

Definition act (a : action) (p : Page) : Page :=
  match a with
  | ClickCheckbox id => clickCheckbox id p
  | ChooseRadio id => {| state := chooseRadio id (state p); ticked := ticked p |}
  | ChooseCity v => {| state := chooseCity v (state p); ticked := ticked p |}
  end.

Definition run (acts : list action) (p : Page) : Page :=
  foldl (fun p a => act a p) p acts.

(** The three radio buttons: id and [value] attribute. *)
Definition radios : list (string * string) :=
  [("male", "Male"); ("female", "Female"); ("other", "Other")].

Definition genders : list string := ["Male"; "Female"; "Other"].
Definition cities : list string := ["Kolkata"; "Hyderabad"; "Delhi"; "Chennai"; "Pune"].

(** The list kept by the component agrees with the boxes ticked in the
    browser: no entry twice, the value of a checkbox is listed exactly when
    the box is ticked, and nothing else is listed. *)
Definition synced (p : Page) : Prop :=
  NoDup (skills (state p))
  ∧ (∀ id value, (id, value) ∈ checkboxes ->
       (value ∈ skills (state p) ↔ id ∈ ticked p))
  ∧ (∀ v, v ∈ skills (state p) -> v ∈ checkboxes.*2).

End InputHandlingPage.

(** ** ArrayState.jsx: the [hobbyDetails] cell and [updateLastHobbyName] *)

Module HobbyDetails.

Record Detail := mkDetail { name : string; time : string }.

(** The cell holds a reference to an array; the array holds references to
    the objects. *)
Record State := mkState {
  hobbyDetails : nat;
  arrays : gmap nat (list nat);
  objects : gmap nat Detail
}.

Definition init : State :=
  {| hobbyDetails := 0;
     arrays := {[ 0 := [0; 1; 2] ]};
     objects :=
       {[ 0 := mkDetail "Reading" "Night 🌃";
          1 := mkDetail "Coding" "Morning 🌄";
          2 := mkDetail "Movies" "Evening 🌆" ]} |}.

(** An array as seen through a reference: its objects in order, [None]
    where an entry is [undefined]. *)
Definition read (st : State) (r : nat) : list (option Detail) :=
  (fun o => objects st !! o) <$> default [] (arrays st !! r).

(** [updateLastHobbyName(name)] closed over [hobbyDetails].  [None] is the
    TypeError of assigning [.name] on [undefined]: [setHobbyDetails] is not
    reached and the state stays as it was. *)
Definition updateLastHobbyName (name' : string) (st : State) : option State :=
  let arr := default [] (arrays st !! hobbyDetails st) in
  let i := (Z.of_nat (length arr) - 1)%Z in
  let last := if (i <? 0)%Z then None else arr !! Z.to_nat i in
  match last ≫= (fun o => (fun d => (o, d)) <$> objects st !! o) with
  | None => None
  | Some (o, d) =>
      let copy := fresh (dom (arrays st)) in
      Some {| hobbyDetails := copy;
              arrays := <[copy := arr]> (arrays st);
              objects := <[o := {| name := name'; time := time d |}]> (objects st) |}
  end.

(** A state whose [hobbyDetails] is the empty array. *)
Definition empty : State := {| hobbyDetails := 0; arrays := {[ 0 := [] ]}; objects := ∅ |}.

End HobbyDetails.

(** ** DigitalClock.jsx: any life of the page *)

Module DigitalClockRun.
Import DigitalClock.

(** The number of timers the clock holds: one while mounted. *)
Definition live (p : Page) : nat :=
  match clock p with
  | Some _ => 1
  | None => 0
  end.


End DigitalClockRun.

(** ** PropsTask/ClockContainer.jsx *)

Module ClockContainer.

(** The container's one state cell, [clockClr]. *)
Definition State := string.

Definition init : State := "yellow".

Definition opt (value label : string) : node State :=
  Elem "option" [("value", AStr value)] [Text label].

(** [currTime] is the state cell of the [DigitalClock] child. *)
Definition ClockContainer (currTime : DigitalClock.State) (clockClr : State) : node State :=
  Elem "div"
    [("style", AStr "background-color: black; padding: 1.5em; border-radius: 10px")]
    [ Elem "select"
        [ ("style", AStr "padding: 5px; border-radius: 10px");
          ("defaultValue", AStr clockClr);
          ("onChange", AHandler (fun evt => Js.target_value evt)) ]
        [ opt "yellow" "Yellow 🌻";
          opt "blue" "Blue 🌊";
          opt "red" "Red 🍒";
          opt "green" "Green 🌿";
          opt "orange" "Orange 🍊";
          opt "purple" "Purple 🌃";
          opt "white" "White ☁️";
          opt "lime" "Lime 🍋‍🟩" ];
      Component (fun _ => DigitalClock.DigitalClock clockClr currTime) ].

Definition document (currTime : DigitalClock.State) (clockClr : State) : list (html State) :=
  render Js.VUndefined (ClockContainer currTime clockClr).

Definition optionValues (currTime : DigitalClock.State) (clockClr : State) : list string :=
  map (attrString "value") (querySelectorAll (isTag "option") (document currTime clockClr)).

(** The user picks a colour in the drop-down: only a listed option can be
    picked, and the change event carries its value. *)
Definition chooseColour (v : string) (currTime : DigitalClock.State) (clockClr : State)
    : State :=
  if bool_decide (v ∈ optionValues currTime clockClr) then
    dispatch (isTag "select") "onChange" (fun _ => Js.mkEvent v false)
      (document currTime clockClr) clockClr
  else clockClr.

(** The clock face: the colour and the text of the [<h1>]. *)
Definition face (doc : list (html State)) : option (string * string) :=
  match querySelectorAll (isTag "h1") doc with
  | d :: _ => Some (attrString "style.color" d, textContent d)
  | [] => None
  end.

Definition colours : list string :=
  ["yellow"; "blue"; "red"; "green"; "orange"; "purple"; "white"; "lime"].

End ClockContainer.

(** ** Numbers that are integers *)

Module JsNum.

(** Every integer of magnitude at most 2^53 is a double. *)
Definition MAX : Z := 2 ^ 53.

Definition safe (n : Z) : Prop := (- MAX <= n <= MAX)%Z.

(** [a + b] on two such integers: the sum when it is a double, else the
    nearer of the two even neighbours, the one with the even significand
    on a tie (a sum of magnitude at most 2^54 is never further than 1 from
    a double). *)
Definition add (a b : Z) : Z :=
  let x := (a + b)%Z in
  if (Z.abs x <=? MAX)%Z then x
  else if Z.even x then x
  else if ((x + 1) mod 4 =? 0)%Z then (x + 1)%Z
  else (x - 1)%Z.

End JsNum.

(** ** The hooks of React that the components below rely on *)

Module Hooks.

#[export] Instance Event_eq_dec : EqDecision Js.Event.
Proof. solve_decision. Defined.

(** [Object.is] on the values that occur in dependency arrays here:
    numbers that are integers, strings, booleans. *)
#[export] Instance value_eq_dec : EqDecision Js.value.
Proof. solve_decision. Defined.

(** What a state setter is called with: the next value, or a function of
    the pending value. *)
Inductive update (A : Type) :=
| SetTo (v : A)
| Updater (f : A -> A).
Arguments SetTo {A} v.
Arguments Updater {A} f.

Definition applyUpdate {A} (s : A) (u : update A) : A :=
  match u with
  | SetTo v => v
  | Updater f => f s
  end.

(** The updates queued before the next render, applied in order. *)
Definition flush {A} (queue : list (update A)) (s : A) : A :=
  foldl applyUpdate s queue.

(** A [useEffect] call of a component with props (or state) [P], acting
    on an environment [E]: its dependency array ([None] when the call has
    none), what it does, and the cleanup it returns (the identity when it
    returns nothing; no cleanup below reads a prop). *)
Record effect (P E : Type) := mkEffect {
  deps : option (P -> list Js.value);
  setup : P -> E -> E;
  cleanup : E -> E
}.
Arguments mkEffect {P E} deps setup cleanup.
Arguments deps {P E} e.
Arguments setup {P E} e.
Arguments cleanup {P E} e.

(** Does the effect run again after a render that went from [old] to
    [new]? *)
Definition changed {P E} (old new : P) (e : effect P E) : bool :=
  match deps e with
  | None => true
  | Some d => negb (bool_decide (d old = d new))
  end.

(** After the first render every effect runs, in order. *)
Definition mount {P E} (effects : list (effect P E)) (p : P) (env : E) : E :=
  foldl (fun env e => setup e p env) env effects.

(** After a later render the effects whose dependencies changed run
    again: first their cleanups, then the effects, each in order. *)
Definition rerender {P E} (effects : list (effect P E)) (old new : P) (env : E) : E :=
  let again := List.filter (changed old new) effects in
  foldl (fun env e => setup e new env)
    (foldl (fun env e => cleanup e env) env again) again.


(** A component's life: the first render with [p], then a render for each
    of [ps] in turn.  The result is the last props and the environment. *)
Fixpoint renders {P E} (effects : list (effect P E)) (p : P) (ps : list P) (env : E)
    : P * E :=
  match ps with
  | [] => (p, env)
  | p' :: ps => renders effects p' ps (rerender effects p p' env)
  end.



(** The console: what [console.log] has printed so far. *)
Abbreviation console := (list string).

Definition log (msg : string) : console -> console := fun c => c ++ [msg].


End Hooks.

(** ** UseEffect.jsx *)

Module UseEffect.
Import Hooks.

(** The state cell [counter]. *)
Definition State := Z.

Definition onceMsg : string := "Fx Called Once ✅".
Definition changeMsg : string := "Fx Called on COUNTER change 🔄️".

Definition effects : list (effect State console) :=
  [ mkEffect (Some (fun _ => [])) (fun _ => log onceMsg) id;
    mkEffect (Some (fun counter => [Js.VNum counter])) (fun _ => log changeMsg) id ].

(** The click handler hands [setCounter] an updater. *)
Definition UseEffect (counter : State) : node (update State) :=
  Elem "div" []
    [ Elem "h2" [] [Text "useEffect Hook 🪝"];
      Elem "button"
        [("onClick", AHandler (fun _ => Updater (fun prev => JsNum.add prev 1)))]
        [Text "Counter: "; expr (Js.VNum counter); Text " "] ].

Definition document (counter : State) : list (html (update State)) :=
  render Js.VUndefined (UseEffect counter).

Record Page := mkPage { counter : State; out : console }.

(** After the first render and its effects. *)
Definition start : Page := {| counter := 0%Z; out := mount effects 0%Z [] |}.

(** A click on the button and the render it causes. *)
Definition click (p : Page) : Page :=
  let u := dispatch (isTag "button") "onClick" clickEvent (document (counter p))
             (Updater id) in
  let counter' := flush [u] (counter p) in
  {| counter := counter'; out := rerender effects (counter p) counter' (out p) |}.

Definition buttonText (p : Page) : string :=
  match querySelectorAll (isTag "button") (document (counter p)) with
  | d :: _ => textContent d
  | [] => ""
  end.

End UseEffect.

(** ** UseEffect2.jsx *)

Module UseEffect2.
Import Hooks.

Record Props := mkProps { count : Js.value; randData : Js.value }.

Definition onceMsg : string := "useEffect() called only once 1️⃣✔️".
Definition cleanupMsg : string := "UseEffect cleanup() called 🗑️🧹".
Definition counterMsg : string := "handleCounter() called ☑️".
Definition dataMsg : string := "handleData() called ✅".

Definition handleCounter : console -> console := log counterMsg.
Definition handleData : console -> console := log dataMsg.

Definition effects : list (effect Props console) :=
  [ mkEffect (Some (fun _ => [])) (fun _ => log onceMsg) (log cleanupMsg);
    mkEffect (Some (fun p => [count p])) (fun _ => handleCounter) id;
    mkEffect (Some (fun p => [randData p])) (fun _ => handleData) id ].


End UseEffect2.

(** ** UseEffect3.jsx *)

Module UseEffect3.
Import Hooks.

(** The one prop, [count]. *)
Definition Props := Js.value.

Definition mountMsg : string := "Mounting Phase Only... 🚀".
Definition updateMsg : string := "Update Phase Only... 🔧".
Definition unmountMsg : string := "Unmounting Phase Only... 🧹".

Definition effects : list (effect Props console) :=
  [ mkEffect (Some (fun _ => [])) (fun _ => log mountMsg) id;
    mkEffect (Some (fun count => [count])) (fun _ => log updateMsg) id;
    mkEffect (Some (fun _ => [])) (fun _ => id) (log unmountMsg) ].


End UseEffect3.

(** ** The hooks of the custom-hooks notes: useTheme, useCounter,
       useDocumentTitle *)

Module UseTheme.
Import Hooks.

(** The state cell [theme]. *)
Definition State := string.

Definition init : State := "light".

(** [document.body.className] *)
Definition Body := string.

Definition effects : list (effect State Body) :=
  [ mkEffect (Some (fun theme => [Js.VStr theme])) (fun theme _ => theme) id ].

(** [toggleTheme] hands [setTheme] an updater. *)
Definition toggleTheme : update State :=
  Updater (fun prevTheme => if String.eqb prevTheme "light" then "dark" else "light").

Record Page := mkPage { theme : State; className : Body }.

(** The first render and its effect, on a page whose body has the class
    [cls]. *)
Definition start (cls : Body) : Page :=
  {| theme := init; className := mount effects init cls |}.

(** [toggleTheme] called [k] times before the next render, then that
    render and its effects. *)
Definition toggles (k : nat) (p : Page) : Page :=
  let theme' := flush (replicate k toggleTheme) (theme p) in
  {| theme := theme'; className := rerender effects (theme p) theme' (className p) |}.

Definition run (batches : list nat) (p : Page) : Page :=
  foldl (fun p k => toggles k p) p batches.

(** What [App] shows in its heading. *)
Definition heading (theme : State) : string :=
  "Current Theme: " +:+ (if String.eqb theme "light" then "🌞 Light" else "🌙 Dark").

End UseTheme.

Module UseCounter.
Import Hooks.

(** [increment] and [decrement] as closed over the [count] of the render
    that created them: each hands [setCount] a value. *)
Definition increment (count : Z) : update Z := SetTo (JsNum.add count 1).
Definition decrement (count : Z) : update Z := SetTo (JsNum.add count (-1)).

(** The updater form that UseEffect.jsx uses for the same purpose. *)
Definition incrementPrev : update Z := Updater (fun prev => JsNum.add prev 1).

End UseCounter.

Module UseDocumentTitle.
Import Hooks.

(** The prop [title]; the environment is [document.title]. *)
Definition effects : list (effect string string) :=
  [ mkEffect (Some (fun title => [Js.VStr title])) (fun title _ => title)
      (fun _ => "React App") ].

End UseDocumentTitle.

(** ** The [App] that uses [useFetch], and the second [useFetch] of the
       custom-hooks notes *)

Module FetchApp.
Import UseFetch.

(** [obj.k] on an object as parsed: the last binding of a repeated key is
    the one [JSON.parse] keeps. *)
Fixpoint lookup (k : string) (fields : list (string * json)) : option json :=
  match fields with
  | [] => None
  | (k', v) :: fields =>
      match lookup k fields with
      | Some v' => Some v'
      | None => if String.eqb k' k then Some v else None
      end
  end.

(** The outcome of evaluating an expression: a value, [undefined], or a
    thrown TypeError. *)
Inductive result (A : Type) :=
| Value (a : A)
| Undefined
| Throws.
Arguments Value {A} a.
Arguments Undefined {A}.
Arguments Throws {A}.

(** [post.k]: a TypeError on [null], [undefined] on a value without that
    property. *)
Definition prop (k : string) (post : json) : result json :=
  match post with
  | JNull => Throws
  | JObj fields =>
      match lookup k fields with
      | Some v => Value v
      | None => Undefined
      end
  | _ => Undefined
  end.

(** A value as a JSX child: text for strings and numbers, nothing for
    booleans and null, the children of its items for an array; an object
    is refused by React ([None]). *)
Fixpoint child {S} (j : json) : option (list (node S)) :=
  match j with
  | JStr s => Some [Text s]
  | JNum n => Some [Text (pretty n)]
  | JBool _ | JNull => Some []
  | JArr items =>
      (fix children (items : list json) : option (list (node S)) :=
         match items with
         | [] => Some []
         | item :: items =>
             match child item, children items with
             | Some c, Some cs => Some (c ++ cs)
             | _, _ => None
             end
         end) items
  | JObj _ => None
  end.

(** [<li key={post.id}>{post.title}</li>] *)
Definition item {S} (post : json) : option (node S) :=
  match prop "id" post, prop "title" post with
  | Throws, _ | _, Throws => None
  | _, Undefined => Some (Elem "li" [] [])
  | _, Value title => (fun c => Elem "li" [] c) <$> child title
  end.

(** [data.map(...)]: only an array has [map]. *)
Definition items {S} (data : json) : option (list (node S)) :=
  match data with
  | JArr posts => mapM item posts
  | _ => None
  end.

(** [App] on what [useFetch] returned; [None] when rendering throws. *)
Definition App {S} (st : State) : option (node S) :=
  if loading st then Some (Elem "p" [] [Text "Loading..."])
  else
    match error st with
    | Some msg =>
        if negb (String.eqb msg "") then Some (Elem "p" [] [Text "Error: "; Text msg])
        else
          (fun lis => Elem "div" [] [Elem "h1" [] [Text "Posts"]; Elem "ul" [] lis])
            <$> items (data st)
    | None =>
        (fun lis => Elem "div" [] [Elem "h1" [] [Text "Posts"]; Elem "ul" [] lis])
          <$> items (data st)
    end.

(** The text of the list items of what [App] shows. *)
Definition shown {S} (app : option (node S)) : option (list string) :=
  (fun n => map textContent (querySelectorAll (isTag "li") (render Js.VUndefined n)))
    <$> app.

(** A post as the server sends it. *)
Definition post (id : Z) (title : string) : json :=
  JObj [("id", JNum id); ("title", JStr title)].

Section Second.
(** The network: how [fetch(url, options)] settles. *)
Variable fetch : string -> settled Response.

(** [fetchData] of the hook with an [options] parameter: no look at
    [response.ok], and the caught error itself goes to [setError] (of an
    error only its message is kept here). *)
Definition fetchData2 (url : string) : M unit :=
  try_catch_finally
    (response ← await (fetch url);
     result ← await (json_body response);
     setData result)
    (fun err => setError (message err))
    (setLoading false).

Definition effect2 (url : string) (st : State) : State := (fetchData2 url st).1.
End Second.

(** The server answers 404 with a JSON body that says so. *)
Definition notFoundBody : json := JObj [("error", JStr "Not Found")].
Definition not_found_with_body (_ : string) : settled Response :=
  Fulfilled (mkResponse false (Fulfilled notFoundBody)).

End FetchApp.

(** ** context/: picking a subject, and components outside a provider *)

Module ContextRun.
Import Context.

Section Parent.
Variable College : node State.

(** The values of the options of the first drop-down of the page, the one
    of [ParentCtxt]. *)
Definition optionValues (dflt : Js.value) (subject : State) : list string :=
  match querySelectorAll (isTag "select") (document College dflt subject) with
  | d :: _ => map (attrString "value") (select (isTag "option") d)
  | [] => []
  end.

(** The user picks a subject in the drop-down: only a listed option can be
    picked, and the change event carries its value. *)
Definition chooseSubject (dflt : Js.value) (v : string) (subject : State) : State :=
  if bool_decide (v ∈ optionValues dflt subject) then
    dispatch (isTag "select") "onChange" (fun _ => Js.mkEvent v false)
      (document College dflt subject) subject
  else subject.
End Parent.

Definition subjects : list string := [""; "Mathematics"; "Science"; "Social Studies"].


End ContextRun.

(** ** UseId.jsx *)

Module UseId.

Section Components.
Context {S : Type}.

(** [UseIdForm], with the [user] that [useId()] returned to this instance.
    The [console.log] call has no effect on the output. *)
Definition UseIdForm (user : string) : node S :=
  Elem "form" []
    [ Elem "label" [("htmlFor", AStr (user +:+ "name"))] [Text "UserName: "];
      Elem "input"
        [ ("type", AStr "text"); ("id", AStr (user +:+ "name"));
          ("name", AStr "name"); ("placeholder", AStr "Enter name..") ] [];
      Elem "label" [("htmlFor", AStr (user +:+ "password"))] [Text "Password: "];
      Elem "input"
        [ ("type", AStr "password"); ("id", AStr (user +:+ "password"));
          ("name", AStr "password"); ("placeholder", AStr "Enter password..") ] [];
      Elem "br" [] [];
      Elem "hr" [] [];
      Elem "br" [] [] ].

(** [UseId]; [user1] and [user2] are what [useId()] returns to the first
    and to the second [UseIdForm]. *)
Definition UseId (user1 user2 : string) : node S :=
  Elem "div" []
    [ Elem "h2" [] [Text "useId( ) hook 🪝"];
      Elem "div" []
        [ Elem "hr" [] [];
          Elem "h3" [] [Text "Usage.."];
          Component (fun _ => UseIdForm user1);
          Component (fun _ => UseIdForm user2) ] ].

Definition document (user1 user2 : string) : list (html S) :=
  render Js.VUndefined (UseId user1 user2).

(** The ids of the inputs, and the ids the labels point to, in document
    order. *)
Definition inputIds (doc : list (html S)) : list string :=
  map (attrString "id") (querySelectorAll (isTag "input") doc).

Definition labelTargets (doc : list (html S)) : list string :=
  map (attrString "htmlFor") (querySelectorAll (isTag "label") doc).

End Components.

End UseId.

(** ** UseRef.jsx *)

Module UseRef.

(** What the handlers write of a DOM element: its inline style and its
    placeholder.  Where the focus goes after [focus()] is left to the
    browser and is not part of this state. *)
Record Element := mkElement {
  color : string;
  backgroundColor : string;
  display : string;
  placeholder : string
}.

(** The input and the first [<h1>] as React creates them: the style prop
    of the input sets none of these three properties. *)
Definition inputElement : Element :=
  {| color := ""; backgroundColor := ""; display := "";
     placeholder := "Enter user-name here" |}.

Definition h1Element : Element :=
  {| color := ""; backgroundColor := ""; display := ""; placeholder := "" |}.

(** [inputRef.current], [h1Ref.current] ([None] is [null]) and the state
    cell [changeH1]. *)
Record Page := mkPage {
  inputRef : option Element;
  h1Ref : option Element;
  changeH1 : bool
}.

Definition beforeMount : Page := {| inputRef := None; h1Ref := None; changeH1 := false |}.

Definition mounted : Page :=
  {| inputRef := Some inputElement; h1Ref := Some h1Element; changeH1 := false |}.

(** The handlers; [None] is the TypeError of reading a property of
    [null].  The [console.log] calls have no effect on the page. *)
Definition handleRef (p : Page) : option Page :=
  el ← inputRef p;
  Some {| inputRef :=
            Some {| color := "red"; backgroundColor := "yellow"; display := display el;
                    placeholder := "Placeholder changed!" |};
          h1Ref := h1Ref p; changeH1 := changeH1 p |}.

Definition toggleRef (p : Page) : option Page :=
  el ← inputRef p;
  let display' := if negb (String.eqb (display el) "none") then "none" else "inline" in
  Some {| inputRef :=
            Some {| color := color el; backgroundColor := backgroundColor el;
                    display := display'; placeholder := placeholder el |};
          h1Ref := h1Ref p; changeH1 := changeH1 p |}.

Definition h1Handler (p : Page) : option Page :=
  el ← h1Ref p;
  Some {| inputRef := inputRef p;
          h1Ref :=
            Some {| color := "blue"; backgroundColor := backgroundColor el;
                    display := display el; placeholder := placeholder el |};
          changeH1 := changeH1 p |}.

Definition h1StateChanger (p : Page) : option Page :=
  Some {| inputRef := inputRef p; h1Ref := h1Ref p; changeH1 := negb (changeH1 p) |}.

(** The four buttons. *)
Inductive button := FocusInput | ToggleInput | EditH1 | ChangeH1State.

#[export] Instance button_eq_dec : EqDecision button.
Proof. solve_decision. Defined.

Definition onClick (b : button) : Page -> option Page :=
  match b with
  | FocusInput => handleRef
  | ToggleInput => toggleRef
  | EditH1 => h1Handler
  | ChangeH1State => h1StateChanger
  end.

(** A sequence of clicks; it ends at the first handler that throws. *)
Fixpoint clicks (bs : list button) (p : Page) : option Page :=
  match bs with
  | [] => Some p
  | b :: bs => onClick b p ≫= clicks bs
  end.

(** Is the input on screen? *)
Definition inputVisible (p : Page) : bool :=
  match inputRef p with
  | Some el => negb (String.eqb (display el) "none")
  | None => false
  end.

(** The colour React gives the second [<h1>]. *)
Definition secondH1Color (p : Page) : string := if changeH1 p then "red" else "green".

Definition times (b : button) (bs : list button) : nat :=
  length (filter (fun b' => b' = b) bs).

End UseRef.

(** ** The [useWindowSize] hook of the custom-hooks notes *)

Module UseWindowSize.

Record Size := mkSize { width : Z; height : Z }.

(** A listener for "resize": it is handed [window.innerWidth] and
    [window.innerHeight] as they are when it runs, and the state of the
    hook. *)
Abbreviation Listener := (Size -> Size -> Size).

(** The window: its inner size and its "resize" listeners, each function
    object under the number that stands for its identity. *)
Record Window := mkWindow {
  inner : Size;
  listeners : gmap nat Listener;
  next_closure : nat
}.

(** [handleResize]: [setWindowSize] with the size of the window. *)
Definition handleResize : Listener := fun window _ => window.

(** A mounted hook: its state cell and the [handleResize] its effect
    created, which its cleanup removes. *)
Record Instance := mkInstance { windowSize : Size; handler : nat }.

Record Page := mkPage { window : Window; hook : option Instance }.

Inductive event :=
| Mount                  (* first render, then the effect runs *)
| Rerender               (* the effect has no dependencies: it is skipped *)
| Resize (size : Size)   (* the window is resized: every listener runs *)
| Unmount                (* React runs the cleanup *)
| Foreign.               (* other code of the page listens for "resize" *)

Definition addEventListener (l : Listener) (w : Window) : nat * Window :=
  (next_closure w,
   {| inner := inner w; listeners := <[next_closure w := l]> (listeners w);
      next_closure := S (next_closure w) |}).

Definition removeEventListener (id : nat) (w : Window) : Window :=
  {| inner := inner w; listeners := delete id (listeners w);
     next_closure := next_closure w |}.

Definition step (ev : event) (p : Page) : Page :=
  match ev, hook p with
  | Mount, None =>
      let '(id, w) := addEventListener handleResize (window p) in
      {| window := w;
         hook := Some {| windowSize := inner (window p); handler := id |} |}
  | Resize size, h =>
      let w := {| inner := size; listeners := listeners (window p);
                  next_closure := next_closure (window p) |} in
      {| window := w;
         hook :=
           match h with
           | Some i =>
               match listeners (window p) !! handler i with
               | Some l => Some {| windowSize := l size (windowSize i); handler := handler i |}
               | None => Some i
               end
           | None => None
           end |}
  | Unmount, Some i =>
      {| window := removeEventListener (handler i) (window p); hook := None |}
  | Foreign, _ =>
      {| window := (addEventListener (fun _ st => st) (window p)).2; hook := hook p |}
  | _, _ => p
  end.

Definition run (evs : list event) (p : Page) : Page :=
  foldl (fun p ev => step ev p) p evs.

Definition foreign (ev : event) : nat :=
  match ev with
  | Foreign => 1
  | _ => 0
  end.

Definition live (p : Page) : nat :=
  match hook p with
  | Some _ => 1
  | None => 0
  end.

(** Identities are handed out in increasing order. *)
Definition wf (w : Window) : Prop :=
  ∀ id, id ∈ dom (listeners w) -> id < next_closure w.


(** A page without the hook. *)
Definition blank (size : Size) : Page :=
  {| window := {| inner := size; listeners := ∅; next_closure := 0 |}; hook := None |}.

End UseWindowSize.

(** ** UseTransition.jsx: submissions in flight *)

Module UseTransitionRun.

Definition submittedMsg : string := "Form submitted ✅".

(** The pending flag React keeps for the transition, the async callbacks
    whose promise has not resolved yet, and the console. *)
Record Page := mkPage { pending : bool; inFlight : nat; out : list string }.

Definition start : Page := {| pending := false; inFlight := 0; out := [] |}.

Inductive event :=
| Click    (* the user clicks the button *)
| Settle.  (* the 2000 ms timer of the oldest callback fires *)

(** A disabled button fires no click event; otherwise [handleSubmit]
    starts a transition. *)
Definition click (p : Page) : Page :=
  match SubmitButton.disabled (UseTransition.document (pending p)) with
  | Some true => p
  | _ =>
      {| pending :=
           dispatch (isTag "button") "onClick" clickEvent
             (UseTransition.document (pending p)) (pending p);
         inFlight := S (inFlight p); out := out p |}
  end.

(** A callback resumes after its [await], prints its line and returns;
    the transition is pending as long as another one is in flight. *)
Definition settle (p : Page) : Page :=
  match inFlight p with
  | 0 => p
  | S n =>
      {| pending := negb (Nat.eqb n 0); inFlight := n; out := out p ++ [submittedMsg] |}
  end.

Definition step (ev : event) (p : Page) : Page :=
  match ev with
  | Click => click p
  | Settle => settle p
  end.

Definition run (evs : list event) (p : Page) : Page :=
  foldl (fun p ev => step ev p) p evs.

(** Is the 'LOADING...' heading on screen? *)
Definition loadingShown (p : Page) : bool :=
  match querySelectorAll (isTag "h1") (UseTransition.document (pending p)) with
  | [] => false
  | _ :: _ => true
  end.

End UseTransitionRun.

(** ** The [useUserData] hook of the custom-hooks notes *)

Module UseUserData.
Import UseFetch.

(** [data?.role === 'admin'] *)
Definition roleIsAdmin (data : json) : bool :=
  match FetchApp.prop "role" data with
  | FetchApp.Value (JStr role) => String.eqb role "admin"
  | _ => false
  end.

(** The effect: [if (data?.role === 'admin') setIsAdmin(true)]. *)
Definition effect (data : json) (isAdmin : bool) : bool :=
  if roleIsAdmin data then true else isAdmin.

(** The [isAdmin] cell over the renders of a component: [data] is what
    [useFetch] returned to the last render, [later] what it returns to the
    renders that follow; the effect depends on [data] and runs again when
    [same] (Object.is on the two values) says the value is another one. *)
Fixpoint renders (same : json -> json -> bool)
    (data : json) (later : list json) (isAdmin : bool) : bool :=
  match later with
  | [] => isAdmin
  | data' :: later =>
      renders same data' later (if same data data' then isAdmin else effect data' isAdmin)
  end.

(** From the first render on: the cell starts false and the effect runs. *)
Definition useUserData (same : json -> json -> bool) (data : json) (later : list json)
    : bool :=
  renders same data later (effect data false).

Definition admin : json := JObj [("name", JStr "Ada"); ("role", JStr "admin")].
Definition guest : json := JObj [("name", JStr "Bob"); ("role", JStr "guest")].

End UseUserData.

(** ** ObjectState.jsx: what is on screen *)

Module ObjectStateRun.
Import ObjectState.

(** The five [<h3>] lines. *)
Definition lines (st : State) : list string :=
  map textContent (querySelectorAll (isTag "h3") (document st)).

(** A click on 'Update Name'. *)
Definition clickUpdateName (st : State) : State :=
  dispatch (isTagWithText "button" "Update Name") "onClick" clickEvent (document st) st.

(** [{details.skills[0]}]: nothing when the array is empty. *)
Definition primarySkill (st : State) : string :=
  default "" (skills (details st) !! 0).

End ObjectStateRun.

(** * Properties *)

(** ** useToggle and CustomHooks *)

Section ToggleProperties.
Import UseToggle CustomHooks.

Example toggleVal_event :
  toggleVal (Js.VBool true) (Js.VEvent (Js.mkEvent "" false)) = Js.VBool false.
Proof. reflexivity. Qed.

Example toggleVal_undefined : toggleVal (Js.VBool false) Js.VUndefined = Js.VBool true.
Proof. reflexivity. Qed.

Example toggleVal_false : toggleVal (Js.VBool false) (Js.VBool false) = Js.VBool false.
Proof. reflexivity. Qed.

Example click_hide_then_toggle :
  value (click "Toggle Heading" (Js.mkEvent "" false)
           (click "Hide Heading" (Js.mkEvent "" false) init)) = Js.VBool true.
Proof. reflexivity. Qed.

Lemma toggleVal_non_boolean (value val : Js.value) :
  Js.typeof val ≠ "boolean" -> toggleVal value val = Js.not value.
Proof.
  intros Hty. unfold toggleVal.
  destruct (String.eqb_spec (Js.typeof val) "boolean") as [Heq | _]; [done | reflexivity].
Qed.

Lemma toggleVal_boolean (value : Js.value) (b : bool) :
  toggleVal value (Js.VBool b) = Js.VBool b.
Proof. reflexivity. Qed.

Lemma showsHeading_truthy (st : State) :
  showsHeading st = Js.truthy (value st).
Proof.
  unfold showsHeading, document, CustomHooks.CustomHooks.
  destruct (Js.truthy (value st)); [reflexivity |].
  destruct (Js.truthy (data st)); reflexivity.
Qed.

(** C1: whatever boolean the toggle holds, calling [toggleVal] with an
    argument that is not a boolean stores the negation; the 'Toggle
    Heading' button, whose click handler is [toggleVal] itself and so
    receives the event object, does just that; and the heading is on
    screen exactly when the stored value is true. *)
Theorem toggle_button_flips_heading
    (b : bool) (d val : Js.value) (evt : Js.Event) :
  Js.typeof val ≠ "boolean" ->
  let st := {| value := Js.VBool b; data := d |} in
  toggleVal (Js.VBool b) val = Js.VBool (negb b)
  ∧ click "Toggle Heading" evt st = {| value := Js.VBool (negb b); data := d |}
  ∧ showsHeading st = b
  ∧ showsHeading (click "Toggle Heading" evt st) = negb b.
Proof.
  intros Hty st.
  assert (Hclick : click "Toggle Heading" evt st
                   = {| value := Js.VBool (negb b); data := d |}) by reflexivity.
  split; [by rewrite toggleVal_non_boolean |].
  split; [exact Hclick |].
  split; [by rewrite showsHeading_truthy |].
  by rewrite Hclick, showsHeading_truthy.
Qed.

Lemma toggle_button_flips_heading_witness :
  Js.typeof (Js.VEvent (Js.mkEvent "" false)) ≠ "boolean"
  ∧ showsHeading (click "Toggle Heading" (Js.mkEvent "" false) init) = false.
Proof.
  assert (H : Js.typeof (Js.VEvent (Js.mkEvent "" false)) ≠ "boolean")
    by (vm_compute; discriminate).
  split; [exact H |].
  exact (proj2 (proj2 (proj2
    (toggle_button_flips_heading true (Js.VBool true) _ (Js.mkEvent "" false) H)))).
Defined.

(** C8: [toggleVal b] with a boolean [b] stores exactly [b], whatever was
    stored before; so the 'Show Heading' and 'Hide Heading' buttons,
    which call [toggleValue(true)] and [toggleValue(false)], are
    idempotent. *)
Theorem show_hide_buttons_idempotent (b : bool) (st : State) (evt evt' : Js.Event) :
  let label := if b then "Show Heading" else "Hide Heading" in
  toggleVal (value st) (Js.VBool b) = Js.VBool b
  ∧ click label evt st = {| value := Js.VBool b; data := data st |}
  ∧ click label evt' (click label evt st) = click label evt st.
Proof.
  destruct b; repeat split.
Qed.

End ToggleProperties.

(** ** InputHandling *)

Section InputHandlingProperties.
Import InputHandling.

Example join_three : Js.join ", " ["NextJs15"; "React19"; "VueJs"] = "NextJs15, React19, VueJs".
Proof. reflexivity. Qed.

Example join_none : Js.join ", " [] = "".
Proof. reflexivity. Qed.

Example uncheck_removes_every_occurrence :
  onHandleChange ["NextJs15"; "React19"; "VueJs"; "React19"] (Js.mkEvent "React19" false)
  = ["NextJs15"; "VueJs"].
Proof. vm_compute. reflexivity. Qed.

Example check_twice_appends_twice :
  skillsLine (toggleCheckbox "react" true (toggleCheckbox "react" true init))
  = "Skills: React19, React19".
Proof. reflexivity. Qed.

Lemma toggleCheckbox_handler (id value : string) (checked : bool) (st : State) :
  (id, value) ∈ checkboxes ->
  toggleCheckbox id checked st
  = {| skills := onHandleChange (skills st) (Js.mkEvent value checked);
       gender := gender st; city := city st |}.
Proof.
  unfold checkboxes. intros Hin.
  repeat (apply elem_of_cons in Hin as [[= -> ->] | Hin]; [reflexivity |]).
  by apply elem_of_nil in Hin.
Qed.

Lemma onHandleChange_checked (l : list string) (v : string) :
  onHandleChange l (Js.mkEvent v true) = l ++ [v].
Proof. reflexivity. Qed.

Lemma onHandleChange_unchecked (l : list string) (v : string) :
  onHandleChange l (Js.mkEvent v false) = filter (fun s => s ≠ v) l.
Proof. reflexivity. Qed.

(** Occurrences of entries other than [v] survive the filter. *)
Lemma filter_other_occurrences (l : list string) (v s : string) :
  s ≠ v ->
  filter (fun x => x = s) (filter (fun x => x ≠ v) l) = filter (fun x => x = s) l.
Proof.
  intros Hne. rewrite list_filter_filter.
  induction l as [| x l IH]; [reflexivity |].
  rewrite !filter_cons, IH.
  destruct (decide (x = s)) as [-> | Hxs].
  - destruct (decide (s = s ∧ s ≠ v)) as [_ | Hn]; [done |].
    by destruct Hn.
  - destruct (decide (x = s ∧ x ≠ v)) as [[Heq _] | _]; done.
Qed.

Lemma skillsLine_join (st : State) :
  skillsLine st = "Skills: " +:+ Js.join ", " (skills st).
Proof.
  reflexivity.
Qed.

(** C2, as the claim has it, fails: the entry appended for a checkbox is
    its [value] attribute, not the text of its label.  Checking the
    'NextJs' box on the initial state stores ["NextJs15"]. *)
Lemma checkbox_appends_value_not_label :
  labelFor "nextjs" (document init) = Some "NextJs"
  ∧ skills (toggleCheckbox "nextjs" true init) = ["NextJs15"]
  ∧ skills (toggleCheckbox "nextjs" true init) ≠ skills init ++ ["NextJs"]
  ∧ skillsLine (toggleCheckbox "nextjs" true init) = "Skills: NextJs15".
Proof.
  repeat split. vm_compute. discriminate.
Qed.

(** C2 (amended): a change event of any of the five checkboxes runs
    [onHandleChange] with the box's [value] attribute.  If the box became
    checked, that value is appended to the end of the skills list; if it
    became unchecked, every occurrence of it is removed, the remaining
    entries keep their relative order and their number of occurrences.
    The 'Skills:' line shows the list joined by ", ". *)
Theorem checkbox_group_accumulates_values
    (id value : string) (st : State) :
  (id, value) ∈ checkboxes ->
  skills (toggleCheckbox id true st) = skills st ++ [value]
  ∧ (let rest := skills (toggleCheckbox id false st) in
     rest = filter (fun s => s ≠ value) (skills st)
     ∧ (value ∉ rest)
     ∧ sublist rest (skills st)
     ∧ ∀ s, s ≠ value ->
         filter (fun x => x = s) rest = filter (fun x => x = s) (skills st))
  ∧ (∀ checked, gender (toggleCheckbox id checked st) = gender st
                ∧ city (toggleCheckbox id checked st) = city st)
  ∧ skillsLine st = "Skills: " +:+ Js.join ", " (skills st).
Proof.
  intros Hin. split; [| split; [| split]].
  - by rewrite (toggleCheckbox_handler id value).
  - rewrite (toggleCheckbox_handler id value) by done. cbn [skills].
    rewrite onHandleChange_unchecked. cbn zeta. split; [done |]. split; [| split].
    + intros [Hne _]%list_elem_of_filter. by apply Hne.
    + apply sublist_filter.
    + intros s Hs. by apply filter_other_occurrences.
  - intros checked. by rewrite (toggleCheckbox_handler id value).
  - apply skillsLine_join.
Qed.

Lemma checkbox_group_accumulates_values_witness :
  ("react", "React19") ∈ checkboxes
  ∧ skills (toggleCheckbox "react" true
              (toggleCheckbox "nextjs" true init)) = ["NextJs15"; "React19"].
Proof.
  assert (H : ("react", "React19") ∈ checkboxes)
    by (unfold checkboxes; apply list_elem_of_In; simpl; tauto).
  split; [exact H |].
  exact (proj1 (checkbox_group_accumulates_values "react" "React19"
                  (toggleCheckbox "nextjs" true init) H)).
Defined.

End InputHandlingProperties.

(** ** useFetch *)

Section UseFetchProperties.
Import UseFetch.
Variable fetch : string -> settled Response.

(** A failure reaches the [catch] block, whatever the cells held. *)
Lemma effect_failure (url : string) (st : State) (e : Error) :
  failure (fetch url) = Some e ->
  effect fetch url st
  = {| data := data st; error := Some (message e); loading := false |}.
Proof.
  unfold failure, effect, fetchData, try_catch_finally.
  unfold mbind, M_bind, await. intros Hfail.
  destruct (fetch url) as [resp | e']; cbn.
  - destruct (ok resp); [discriminate |]. by injection Hfail as <-.
  - by injection Hfail as <-.
Qed.

(** An ok response whose body parses reaches [setData]. *)
Lemma effect_success (url : string) (st : State) (resp : Response) (result : json) :
  fetch url = Fulfilled resp -> ok resp = true -> json_body resp = Fulfilled result ->
  effect fetch url st
  = {| data := result; error := error st; loading := false |}.
Proof.
  unfold effect, fetchData, try_catch_finally.
  unfold mbind, M_bind, await. intros ->. cbn. intros -> ->. reflexivity.
Qed.

(** A body that fails to parse is one more failure for the [catch]. *)
Lemma effect_bad_body (url : string) (st : State) (resp : Response) (e : Error) :
  fetch url = Fulfilled resp -> ok resp = true -> json_body resp = Rejected e ->
  effect fetch url st
  = {| data := data st; error := Some (message e); loading := false |}.
Proof.
  unfold effect, fetchData, try_catch_finally.
  unfold mbind, M_bind, await. intros ->. cbn. intros -> ->. reflexivity.
Qed.

(** [fetchData] never leaves an exception uncaught. *)
Lemma fetchData_completes (url : string) (st : State) :
  (fetchData fetch url st).2 = inr ().
Proof.
  unfold fetchData, try_catch_finally, mbind, M_bind, await.
  destruct (fetch url) as [resp | e]; [cbn | reflexivity].
  destruct (ok resp); [| reflexivity].
  destruct (json_body resp); reflexivity.
Qed.

(** C3: when [fetch] rejects, or resolves with a response that is not ok,
    the hook catches the failure: the error cell holds the message of the
    error, loading is false and the data cell is left as it was, null
    from the initial state.  On an ok response whose body parses to
    [result], the data cell holds [result], the error cell is left as it
    was, null from the initial state, and loading is false. *)
Theorem useFetch_stores_error_or_data (url : string) :
  (∀ e, failure (fetch url) = Some e ->
     useFetch fetch url
     = {| data := JNull; error := Some (message e); loading := false |}
     ∧ ∀ st, effect fetch url st
             = {| data := data st; error := Some (message e); loading := false |})
  ∧ (∀ resp result,
       fetch url = Fulfilled resp -> ok resp = true ->
       json_body resp = Fulfilled result ->
       useFetch fetch url
       = {| data := result; error := None; loading := false |}
       ∧ ∀ st, effect fetch url st
               = {| data := result; error := error st; loading := false |}).
Proof.
  split.
  - intros e Hfail. split; [| intros st].
    + exact (effect_failure url init e Hfail).
    + exact (effect_failure url st e Hfail).
  - intros resp result Hresp Hok Hbody.
    split; [| intros st].
    + exact (effect_success url init resp result Hresp Hok Hbody).
    + exact (effect_success url st resp result Hresp Hok Hbody).
Qed.

End UseFetchProperties.

(** The three ways the call of the notes can go. *)
Lemma useFetch_stores_error_or_data_witness :
  UseFetch.useFetch UseFetch.down "/posts"
  = UseFetch.mkState UseFetch.JNull (Some "Failed to fetch") false
  ∧ UseFetch.useFetch UseFetch.not_found "/posts"
    = UseFetch.mkState UseFetch.JNull (Some "Network response was not ok") false
  ∧ UseFetch.useFetch UseFetch.served "/posts"
    = UseFetch.mkState UseFetch.posts None false.
Proof.
  split; [| split].
  - exact (proj1 (proj1 (useFetch_stores_error_or_data UseFetch.down "/posts")
                    _ eq_refl)).
  - exact (proj1 (proj1 (useFetch_stores_error_or_data UseFetch.not_found "/posts")
                    _ eq_refl)).
  - exact (proj1 (proj2 (useFetch_stores_error_or_data UseFetch.served "/posts")
                    _ _ eq_refl eq_refl eq_refl)).
Defined.

(** ** DigitalClock *)

Section DigitalClockProperties.
Import DigitalClock.

Ltac simpl_page :=
  unfold mounted_inv, unmounted_inv, step, effect, setInterval, clearInterval;
  cbn [window timers next_handle clock currTime cleanup snd fst].

Lemma wf_fresh (w : Window) : wf w -> timers w !! next_handle w = None.
Proof.
  intros Hwf. apply not_elem_of_dom. intros Hin%Hwf. lia.
Qed.

Lemma wf_setInterval cb ms (w : Window) : wf w -> wf (setInterval cb ms w).2.
Proof.
  intros Hwf h. cbn. rewrite dom_insert_L, elem_of_union, elem_of_singleton.
  intros [-> | Hin%Hwf]; lia.
Qed.

Lemma wf_clearInterval h (w : Window) : wf w -> wf (clearInterval h w).
Proof.
  intros Hwf h'. cbn. rewrite dom_delete_L, elem_of_difference.
  intros [Hin%Hwf _]. done.
Qed.

Lemma run_cons ev evs p : run (ev :: evs) p = run evs (step ev p).
Proof. reflexivity. Qed.

Lemma mount_mounted (p : Page) (now : string) :
  wf (window p) -> clock p = None ->
  mounted_inv (next_handle (window p)) (S (size (timers (window p))))
    (step (Mount now) p).
Proof.
  intros Hwf Hclock. unfold step. rewrite Hclock. simpl_page.
  split; [by apply (wf_setInterval tick 1000) |].
  split; [by rewrite lookup_insert_eq |].
  split; [by rewrite map_size_insert_None by by apply wf_fresh |].
  by exists now.
Qed.

Lemma step_mounted (h n : nat) (ev : event) (p : Page) :
  ambient ev = true -> mounted_inv h n p -> mounted_inv h (n + foreign ev) (step ev p).
Proof.
  intros Hev (Hwf & Hh & Hsize & now & Hclock).
  destruct ev as [now' | | h' now' | | ms]; try discriminate;
    unfold step; rewrite ?Hclock; cbn [foreign].
  - rewrite Nat.add_0_r. repeat split; eauto.
  - rewrite Nat.add_0_r. destruct (timers (window p) !! h') as [t |]; simpl_page.
    + repeat split; eauto.
    + repeat split; eauto.
  - simpl_page. split; [by apply (wf_setInterval _ ms) |]. split; [| split].
    + rewrite lookup_insert_ne; [done |].
      intros Heq. rewrite <- Heq, wf_fresh in Hh by done. discriminate.
    + rewrite map_size_insert_None by by apply wf_fresh. lia.
    + eauto.
Qed.

Lemma run_mounted (h : nat) (evs : list event) :
  ∀ n p, forallb ambient evs = true -> mounted_inv h n p ->
         mounted_inv h (n + sum_list (foreign <$> evs)) (run evs p).
Proof.
  induction evs as [| ev evs IH]; intros n p Hevs Hinv.
  - cbn. by rewrite Nat.add_0_r.
  - cbn in Hevs. apply andb_prop in Hevs as [Hev Hevs].
    rewrite run_cons. cbn [fmap list_fmap sum_list].
    rewrite Nat.add_assoc. apply IH; [done |]. by apply step_mounted.
Qed.

Lemma unmount_unmounted (h n : nat) (p : Page) :
  mounted_inv h n p -> unmounted_inv h (pred n) (step Unmount p).
Proof.
  intros (Hwf & Hh & Hsize & now & Hclock).
  unfold step. rewrite Hclock. simpl_page.
  split; [by apply (wf_clearInterval h) |].
  split; [rewrite dom_delete_L, elem_of_difference, elem_of_singleton; by intros [_ []] |].
  split; [apply Hwf; by apply elem_of_dom |].
  split; [| done].
  rewrite <- Hsize. by rewrite map_size_delete, Hh.
Qed.

Lemma step_unmounted (h n : nat) (ev : event) (p : Page) :
  ambient ev = true -> unmounted_inv h n p ->
  unmounted_inv h (n + foreign ev) (step ev p).
Proof.
  intros Hev (Hwf & Hh & Hlt & Hsize & Hclock).
  destruct ev as [now' | | h' now' | | ms]; try discriminate;
    unfold step; rewrite ?Hclock; cbn [foreign].
  - rewrite Nat.add_0_r. by repeat split.
  - rewrite Nat.add_0_r. by repeat split.
  - simpl_page. split; [by apply (wf_setInterval _ ms) |]. split; [| split; [| split]].
    + rewrite dom_insert_L, elem_of_union, elem_of_singleton.
      intros [-> | Hin]; [lia | done].
    + lia.
    + rewrite map_size_insert_None by by apply wf_fresh. lia.
    + done.
Qed.

Lemma run_unmounted (h : nat) (evs : list event) :
  ∀ n p, forallb ambient evs = true -> unmounted_inv h n p ->
         unmounted_inv h (n + sum_list (foreign <$> evs)) (run evs p).
Proof.
  induction evs as [| ev evs IH]; intros n p Hevs Hinv.
  - cbn. by rewrite Nat.add_0_r.
  - cbn in Hevs. apply andb_prop in Hevs as [Hev Hevs].
    rewrite run_cons. cbn [fmap list_fmap sum_list].
    rewrite Nat.add_assoc. apply IH; [done |]. by apply step_unmounted.
Qed.

(** C4: mounting the clock registers exactly one interval timer, with a
    1000 ms period; while the clock stays mounted that timer stays
    registered, no re-render adds another, and every firing of it
    replaces [currTime] with the time string read at that moment;
    unmounting runs the cleanup, which clears that same timer and no
    other; from then on its handle is never registered again. *)
Theorem digital_clock_timer_lifecycle
    (p0 : Page) (now : string) (evs evs' : list event) :
  wf (window p0) -> clock p0 = None ->
  forallb ambient evs = true -> forallb ambient evs' = true ->
  let h := next_handle (window p0) in
  let p1 := step (Mount now) p0 in
  let p2 := run evs p1 in
  let p3 := step Unmount p2 in
  let p4 := run evs' p3 in
  (h ∉ dom (timers (window p0)))
  ∧ timers (window p1) = <[h := mkTimer tick 1000]> (timers (window p0))
  ∧ timers (window p2) !! h = Some (mkTimer tick 1000)
  ∧ size (timers (window p2))
    = size (timers (window p0)) + 1 + sum_list (foreign <$> evs)
  ∧ (∀ now', currTime <$> clock (step (Fire h now') p2) = Some now')
  ∧ clock p3 = None
  ∧ timers (window p3) = delete h (timers (window p2))
  ∧ size (timers (window p3)) = size (timers (window p0)) + sum_list (foreign <$> evs)
  ∧ (h ∉ dom (timers (window p4)))
  ∧ clock p4 = None.
Proof.
  intros Hwf Hclock Hevs Hevs' h p1 p2 p3 p4.
  pose proof (mount_mounted p0 now Hwf Hclock) as H1. fold h p1 in H1.
  pose proof (run_mounted h evs _ _ Hevs H1) as H2. fold p2 in H2.
  pose proof (unmount_unmounted h _ _ H2) as H3. fold p3 in H3.
  pose proof (run_unmounted h evs' _ _ Hevs' H3) as H4. fold p4 in H4.
  destruct H2 as (Hwf2 & Hh2 & Hsize2 & now2 & Hclock2).
  destruct H3 as (Hwf3 & Hh3 & Hlt3 & Hsize3 & Hclock3).
  destruct H4 as (Hwf4 & Hh4 & Hlt4 & Hsize4 & Hclock4).
  split; [by apply not_elem_of_dom, wf_fresh |].
  split; [subst p1; unfold step; by rewrite Hclock |].
  split; [done |].
  split; [lia |].
  split.
  { intros now'. unfold step. by rewrite Hclock2, Hh2. }
  split; [done |].
  split; [subst p3; unfold step; by rewrite Hclock2 |].
  split; [lia |].
  done.
Qed.

Lemma digital_clock_timer_lifecycle_witness :
  wf (window blank) ∧ clock blank = None
  ∧ forallb ambient while_mounted = true ∧ forallb ambient afterwards = true
  ∧ currTime <$> clock (run while_mounted (step (Mount "10:00:00") blank))
    = Some "10:00:02"
  ∧ size (timers (window (run while_mounted (step (Mount "10:00:00") blank)))) = 2
  ∧ 0 ∉ dom (timers (window
        (run afterwards
           (step Unmount (run while_mounted (step (Mount "10:00:00") blank)))))).
Proof.
  assert (Hwf : wf (window blank)).
  { intros h. cbn. rewrite dom_empty_L. by intros ?%not_elem_of_empty. }
  pose proof (digital_clock_timer_lifecycle blank "10:00:00" while_mounted afterwards
                Hwf eq_refl eq_refl eq_refl)
    as (_ & _ & _ & Hsize & _ & _ & _ & _ & Hgone & _).
  split; [exact Hwf |].
  do 3 (split; [reflexivity |]).
  split; [reflexivity |].
  split; [exact Hsize | exact Hgone].
Defined.

End DigitalClockProperties.

(** ** UseFormStatus and UseTransition *)

Section SubmitButtonProperties.

(** C5: whatever the pending flag, the [disabled] attribute of the submit
    button is that flag: in [CustomForm] on its own, in [CustomForm]
    inside the form of [UseFormStatus], and in [UseTransition]. *)
Theorem submit_button_disabled_iff_pending (pending : bool) :
  SubmitButton.disabled (render Js.VUndefined (UseFormStatus.CustomForm pending))
  = Some pending
  ∧ SubmitButton.disabled (UseFormStatus.document pending) = Some pending
  ∧ SubmitButton.disabled (UseTransition.document pending) = Some pending.
Proof.
  destruct pending; repeat split.
Qed.

(** C6: the label of the submit button is the string "Submitting..." when
    the pending flag is true and the string "Submit" when it is false, in
    [CustomForm] as in [UseTransition]; so it is always one of the
    two. *)
Theorem submit_button_label_two_strings (pending : bool) :
  let expected := if pending then "Submitting..." else "Submit" in
  SubmitButton.label (render Js.VUndefined (UseFormStatus.CustomForm pending))
  = Some expected
  ∧ SubmitButton.label (UseFormStatus.document pending) = Some expected
  ∧ SubmitButton.label (UseTransition.document pending) = Some expected
  ∧ expected ∈ ["Submitting..."; "Submit"].
Proof.
  destruct pending; cbn zeta; repeat split.
  - apply list_elem_of_here.
  - apply list_elem_of_further, list_elem_of_here.
Qed.

End SubmitButtonProperties.

(** ** Context *)

Section ContextProperties.
Import Context.

Lemma nodes_cons {S} (d : html S) (doc : list (html S)) :
  nodes (d :: doc) = nodes [d] ++ nodes doc.
Proof. unfold nodes, querySelectorAll. cbn. by rewrite app_nil_r. Qed.

Lemma nodes_flat_map {S} (f : node S -> list (html S)) (c : node S) children d :
  c ∈ children -> d ∈ nodes (f c) -> d ∈ nodes (flat_map f children).
Proof.
  unfold nodes, querySelectorAll. rewrite !list_elem_of_In, !in_flat_map.
  intros Hc (x & Hx & Hd). exists x. split; [| done].
  apply in_flat_map. eauto.
Qed.

(** What a mounted component renders is part of the document. *)
Lemma mounted_render {S} ctx (n : node S) ctx' body :
  mounted ctx n ctx' body ->
  ∀ d, d ∈ nodes (render ctx' (body ctx')) -> d ∈ nodes (render ctx n).
Proof.
  induction 1 as [ctx body | ctx tag attrs children c ctx' body Hc _ IH
                 | ctx v children c ctx' body Hc _ IH | ctx f ctx' body _ IH];
    intros d Hd.
  - done.
  - cbn [render]. unfold nodes, querySelectorAll. cbn. rewrite app_nil_r.
    apply list_elem_of_further. apply (nodes_flat_map _ c); [done |]. by apply IH.
  - cbn [render]. apply (nodes_flat_map _ c); [done |]. by apply IH.
  - cbn [render]. by apply IH.
Qed.

Lemma expr_mounts_nothing {S} ctx v ctx' (body : Js.value -> node S) :
  ¬ mounted ctx (expr v) ctx' body.
Proof. destruct v; inversion 1. Qed.

Ltac inv_mounted :=
  repeat match goal with
    | H : mounted _ (Elem _ _ _) _ _ |- _ => inversion H; subst; clear H
    | H : mounted _ (Provider _ _) _ _ |- _ => inversion H; subst; clear H
    | H : mounted _ (Component _) _ _ |- _ =>
        inversion H; subst; clear H; cbn beta in *
    | H : mounted _ (Text _) _ _ |- _ => inversion H
    | H : mounted _ Null _ _ |- _ => inversion H
    | H : mounted _ (expr _) _ _ |- _ => by apply expr_mounts_nothing in H
    | H : _ ∈ _ :: _ |- _ => apply elem_of_cons in H as [-> | H]
    | H : _ ∈ [] |- _ => by apply elem_of_nil in H
    end.

Lemma ClassComp_mounts_SubjectComp {S} ctx :
  mounted ctx (@ClassComp S) ctx SubjectComp_body.
Proof.
  apply mounted_inside.
  eapply mounted_elem; [apply list_elem_of_further, list_elem_of_here |].
  apply mounted_inside.
  eapply mounted_elem; [apply list_elem_of_further, list_elem_of_here |].
  apply mounted_here.
Qed.

Lemma ClassComp_transparent {S} : transparent (@ClassComp S).
Proof.
  intros ctx ctx' body H.
  cbv [ClassComp StudentComp SubjectComp SubjectComp_body] in H.
  inv_mounted; done.
Qed.

Section Parent.
Variable College : node State.
Hypothesis College_transparent : transparent College.
Hypothesis College_mounts_SubjectComp :
  ∀ ctx, ∃ ctx', mounted ctx College ctx' SubjectComp_body.

Lemma ParentCtxt_mounts_SubjectComp dflt subject :
  mounted dflt (ParentCtxt College subject) (Js.VStr subject) SubjectComp_body.
Proof.
  destruct (College_mounts_SubjectComp (Js.VStr subject)) as [ctx' H].
  rewrite (College_transparent _ _ _ H) in H.
  eapply mounted_elem; [apply list_elem_of_here |].
  eapply mounted_provider; [| exact H].
  do 3 apply list_elem_of_further. apply list_elem_of_here.
Qed.

Lemma ParentCtxt_context dflt subject ctx' body :
  mounted dflt (ParentCtxt College subject) ctx' body -> ctx' = Js.VStr subject.
Proof.
  intros H. cbv [ParentCtxt opt] in H. inv_mounted.
  by eapply College_transparent.
Qed.

(** C7: whatever string the [subject] cell of [ParentCtxt] holds, every
    [SubjectComp] below it is called with [useContext(SubjectCtxt)]
    equal to that string, and the paragraph it renders, which is part
    of the document, reads 'Subject:' followed by that string.  The
    cell starts as the empty string and the Reset button sets it back
    to the empty string. *)
Theorem context_provider_exposes_subject (dflt : Js.value) (subject : State) :
  mounted dflt (ParentCtxt College subject) (Js.VStr subject) SubjectComp_body
  ∧ (∀ ctx', mounted dflt (ParentCtxt College subject) ctx' SubjectComp_body ->
             ctx' = Js.VStr subject)
  ∧ paragraphs (render (Js.VStr subject) (@SubjectComp State))
    = ["Subject:" +:+ subject]
  ∧ (∀ d, d ∈ nodes (render (Js.VStr subject) (@SubjectComp State)) ->
          d ∈ nodes (document College dflt subject))
  ∧ init = ""
  ∧ reset College dflt subject = "".
Proof.
  split; [apply ParentCtxt_mounts_SubjectComp |].
  split; [intros ctx'; apply ParentCtxt_context |].
  split; [reflexivity |].
  split; [| split; reflexivity].
  intros d Hd. unfold document.
  by apply (mounted_render _ _ _ _ (ParentCtxt_mounts_SubjectComp dflt subject)).
Qed.
End Parent.

Lemma CollegeExample_transparent : transparent CollegeExample.
Proof.
  intros ctx ctx' body H.
  cbv [CollegeExample ClassComp StudentComp SubjectComp SubjectComp_body] in H.
  inv_mounted; done.
Qed.

Lemma CollegeExample_mounts_SubjectComp ctx :
  ∃ ctx', mounted ctx CollegeExample ctx' SubjectComp_body.
Proof.
  exists ctx. apply mounted_inside.
  eapply mounted_elem; [apply list_elem_of_further, list_elem_of_here |].
  apply ClassComp_mounts_SubjectComp.
Qed.

Lemma context_provider_exposes_subject_witness :
  transparent CollegeExample
  ∧ (∀ ctx, ∃ ctx', mounted ctx CollegeExample ctx' SubjectComp_body)
  ∧ paragraphs (document CollegeExample Js.VUndefined "Science") = ["Subject:Science"]
  ∧ mounted Js.VUndefined (ParentCtxt CollegeExample "Science")
      (Js.VStr "Science") SubjectComp_body.
Proof.
  split; [exact CollegeExample_transparent |].
  split; [exact CollegeExample_mounts_SubjectComp |].
  split; [reflexivity |].
  exact (proj1 (context_provider_exposes_subject CollegeExample
                  CollegeExample_transparent CollegeExample_mounts_SubjectComp
                  Js.VUndefined "Science")).
Defined.

End ContextProperties.

(** ** ArrayState *)

Section ArrayStateProperties.
Import ArrayState.

Example arrayStore_past_the_end :
  arrayStore [Js.VStr "a"] 3 (Js.VStr "d")
  = [Js.VStr "a"; Js.VUndefined; Js.VUndefined; Js.VStr "d"].
Proof. reflexivity. Qed.

Example updateLastHobby_init :
  hobbiesOf (updateLastHobby "Chess" init)
  = [Js.VStr "Reading 📚"; Js.VStr "Coding 💻"; Js.VStr "Chess"].
Proof. vm_compute. reflexivity. Qed.

Lemma arrayStore_last (arr : list Js.value) (v : Js.value) :
  arr ≠ [] ->
  arrayStore arr (Z.of_nat (length arr) - 1) v = <[pred (length arr) := v]> arr.
Proof.
  intros Hne. unfold arrayStore.
  assert (0 < length arr) by (destruct arr; [done | cbn; lia]).
  destruct (Z.ltb_spec (Z.of_nat (length arr) - 1) 0) as [? | _]; [lia |].
  destruct (Z.ltb_spec (Z.of_nat (length arr) - 1) (Z.of_nat (length arr))) as [_ | ?];
    [| lia].
  f_equal. lia.
Qed.

(** On the empty array the store names the property "-1": no element. *)
Lemma arrayStore_empty (v : Js.value) : arrayStore [] (Z.of_nat 0 - 1) v = [].
Proof. reflexivity. Qed.

Lemma hobbiesOf_updateLastHobby (h : string) (st : State) :
  hobbiesOf (updateLastHobby h st)
  = arrayStore (hobbiesOf st) (Z.of_nat (length (hobbiesOf st)) - 1) (Js.VStr h).
Proof.
  unfold hobbiesOf, updateLastHobby, deref. cbn [heap hobbies].
  by rewrite lookup_insert_eq.
Qed.


(** C9: on a non-empty hobbies list, [updateLastHobby h] stores a list of
    the same length whose last element is [h] and whose elements before
    the last are those of the previous list. *)
Theorem updateLastHobby_replaces_last
    (h : string) (st : State) (old : list Js.value) :
  heap st !! hobbies st = Some old -> old ≠ [] ->
  let new := hobbiesOf (updateLastHobby h st) in
  length new = length old
  ∧ last new = Some (Js.VStr h)
  ∧ (∀ i, i < length old - 1 -> new !! i = old !! i)
  ∧ name (updateLastHobby h st) = name st
  ∧ hobbyDetails (updateLastHobby h st) = hobbyDetails st.
Proof.
  intros Hold Hne new. subst new. rewrite hobbiesOf_updateLastHobby.
  unfold hobbiesOf, deref. rewrite Hold.
  change (default [] (Some old)) with old.
  rewrite arrayStore_last by done.
  assert (0 < length old) by (destruct old; [done | cbn; lia]).
  split; [apply length_insert |].
  split; [rewrite last_lookup, length_insert; apply list_lookup_insert_eq; lia |].
  split; [| done].
  intros i Hi. apply list_lookup_insert_ne. lia.
Qed.

Lemma updateLastHobby_replaces_last_witness :
  heap init !! hobbies init
  = Some [Js.VStr "Reading 📚"; Js.VStr "Coding 💻"; Js.VStr "Movies 🎥"]
  ∧ [Js.VStr "Reading 📚"; Js.VStr "Coding 💻"; Js.VStr "Movies 🎥"] ≠ []
  ∧ last (hobbiesOf (updateLastHobby "Chess" init)) = Some (Js.VStr "Chess").
Proof.
  assert (H1 : heap init !! hobbies init
               = Some [Js.VStr "Reading 📚"; Js.VStr "Coding 💻"; Js.VStr "Movies 🎥"])
    by reflexivity.
  assert (H2 : [Js.VStr "Reading 📚"; Js.VStr "Coding 💻"; Js.VStr "Movies 🎥"] ≠ [])
    by discriminate.
  split; [exact H1 |]. split; [exact H2 |].
  exact (proj1 (proj2 (updateLastHobby_replaces_last "Chess" init _ H1 H2))).
Defined.

End ArrayStateProperties.

(** ** ObjectState *)

Section ObjectStateProperties.
Import ObjectState.

Example typeName_init :
  fullName (details (typeName "Skyy" init)) = "Skyy"
  ∧ skills (details (typeName "Skyy" init)) = ["React"; "JavaScript"; "Node.js"].
Proof. split; reflexivity. Qed.

(** C10: typing [v] into the name input stores a details object whose
    [fullName] is [v]; [age], [location] with its [city] and [country],
    and the [skills] array are those of the previous state, and so is
    the [name] cell. *)
Theorem name_input_updates_fullName_only (v : string) (st : State) :
  let st' := typeName v st in
  fullName (details st') = v
  ∧ age (details st') = age (details st)
  ∧ location (details st') = location (details st)
  ∧ city (location (details st')) = city (location (details st))
  ∧ country (location (details st')) = country (location (details st))
  ∧ skills (details st') = skills (details st)
  ∧ name st' = name st.
Proof.
  repeat split.
Qed.

End ObjectStateProperties.

(** * Further properties *)

(** ** Computing with a symbolic string *)

(** Comparisons of a fixed string with the symbolic [x] are kept folded
    while everything else is computed. *)
Ltac fold_eqb x :=
  let cmp := fresh "cmp" in
  set (cmp := fun s => String.eqb s x);
  repeat match goal with
    | |- context [String.eqb ?s x] => change (String.eqb s x) with (cmp s)
    end;
  repeat match goal with
    | H : context [String.eqb ?s x] |- _ => change (String.eqb s x) with (cmp s) in H
    end;
  clearbody cmp.

(** ** Queries on documents *)

Section Queries.
Context {S : Type}.

(** Induction on a tree with the hypothesis for every child. *)
Lemma html_rect' (P : html S -> Prop)
    (Ptext : ∀ s, P (HText s))
    (Pelem : ∀ tag attrs children, Forall P children -> P (HElem tag attrs children))
    (d : html S) : P d.
Proof.
  revert d. fix IH 1. intros [s | tag attrs children]; [apply Ptext |].
  apply Pelem. induction children as [| c children IHc]; constructor.
  - apply IH.
  - apply IHc.
Qed.

Lemma flat_map_filter {A B} (P : B -> Prop) `{∀ x, Decision (P x)}
    (f g : A -> list B) (l : list A) :
  Forall (fun x => g x = filter P (f x)) l ->
  flat_map g l = filter P (flat_map f l).
Proof.
  induction 1 as [| x l Hx _ IH]; [reflexivity |].
  cbn. by rewrite filter_app, Hx, IH.
Qed.

(** A conjunction of two tests selects, among the nodes the first one
    selects, those that pass the second. *)
Lemma select_and (p q : html S -> bool) (d : html S) :
  select (fun d => p d && q d) d = filter (fun d => q d = true) (select p d).
Proof.
  induction d as [s | tag attrs children IH] using html_rect'.
  - cbn. destruct (p (HText s)); [| done].
    cbn. by destruct (q (HText s)).
  - cbn [select]. rewrite filter_app. f_equal.
    + destruct (p (HElem tag attrs children)); [| done].
      cbn. by destruct (q (HElem tag attrs children)).
    + by apply flat_map_filter.
Qed.

Lemma querySelectorAll_and (p q : html S -> bool) (doc : list (html S)) :
  querySelectorAll (fun d => p d && q d) doc
  = filter (fun d => q d = true) (querySelectorAll p doc).
Proof.
  unfold querySelectorAll. apply flat_map_filter.
  apply Forall_forall. intros d _. apply select_and.
Qed.

(** A query selects, among all the nodes, those that pass the test. *)
Lemma querySelectorAll_nodes (p : html S -> bool) (doc : list (html S)) :
  querySelectorAll p doc = filter (fun d => p d = true) (Context.nodes doc).
Proof.
  unfold Context.nodes.
  rewrite <- (querySelectorAll_and (fun _ => true) p). reflexivity.
Qed.

End Queries.

(** The same for the test of an attribute against the symbolic [x]. *)
Ltac fold_attrIs S k x :=
  let cmp := fresh "cmp" in
  set (cmp := fun s => String.eqb s x);
  change (@attrIs S k x) with
    (fun d : html S =>
       match @getAttr S k d with
       | Some (AStr s) => cmp s
       | _ => false
       end);
  repeat match goal with
    | H : context [String.eqb ?s x] |- _ => change (String.eqb s x) with (cmp s) in H
    end;
  clearbody cmp.

(** ** Runs of CustomHooks *)

Section CustomHooksRunProperties.
Import UseToggle CustomHooks CustomHooksRun.

(** What a click does, by the text of the button hit. *)
Lemma click_cases (label : string) (evt : Js.Event) (st : State) :
  click label evt st =
  if String.eqb "Toggle Heading" label then
    {| value := toggleVal (value st) (Js.VEvent evt); data := data st |}
  else if String.eqb "Show Heading" label then
    {| value := Js.VBool true; data := data st |}
  else if String.eqb "Hide Heading" label then
    {| value := Js.VBool false; data := data st |}
  else if String.eqb "Toggle 2nd Heading" label then
    {| value := value st; data := toggleVal (data st) (Js.VEvent evt) |}
  else if String.eqb "Show 2nd Heading" label then
    {| value := value st; data := Js.VBool true |}
  else if String.eqb "Hide 2nd Heading" label then
    {| value := value st; data := Js.VBool false |}
  else st.
Proof.
  destruct (String.eqb_spec "Toggle Heading" label) as [<- | H1];
    [unfold click, document, CustomHooks.CustomHooks;
     by destruct (Js.truthy (value st)), (Js.truthy (data st)) |].
  destruct (String.eqb_spec "Show Heading" label) as [<- | H2];
    [unfold click, document, CustomHooks.CustomHooks;
     by destruct (Js.truthy (value st)), (Js.truthy (data st)) |].
  destruct (String.eqb_spec "Hide Heading" label) as [<- | H3];
    [unfold click, document, CustomHooks.CustomHooks;
     by destruct (Js.truthy (value st)), (Js.truthy (data st)) |].
  destruct (String.eqb_spec "Toggle 2nd Heading" label) as [<- | H4];
    [unfold click, document, CustomHooks.CustomHooks;
     by destruct (Js.truthy (value st)), (Js.truthy (data st)) |].
  destruct (String.eqb_spec "Show 2nd Heading" label) as [<- | H5];
    [unfold click, document, CustomHooks.CustomHooks;
     by destruct (Js.truthy (value st)), (Js.truthy (data st)) |].
  destruct (String.eqb_spec "Hide 2nd Heading" label) as [<- | H6];
    [unfold click, document, CustomHooks.CustomHooks;
     by destruct (Js.truthy (value st)), (Js.truthy (data st)) |].
  apply String.eqb_neq in H1, H2, H3, H4, H5, H6.
  unfold click, document, CustomHooks.CustomHooks.
  destruct (Js.truthy (value st)), (Js.truthy (data st));
    cbv -[String.eqb toggleVal value data];
    fold_eqb label; cbn; rewrite ?H1, ?H2, ?H3, ?H4, ?H5, ?H6; reflexivity.
Qed.

Lemma click_keeps_booleans (label : string) (evt : Js.Event) (b1 b2 : bool) :
  ∃ b1' b2', click label evt {| value := Js.VBool b1; data := Js.VBool b2 |}
             = {| value := Js.VBool b1'; data := Js.VBool b2' |}.
Proof.
  rewrite click_cases. cbn [value data].
  repeat match goal with
         | |- context [String.eqb ?a label] => destruct (String.eqb a label)
         end; eauto.
Qed.

(** X1: however the six buttons are clicked, in whatever order and with
    whatever else on the page is clicked in between, both cells of
    [CustomHooks] hold booleans, and each heading is on screen exactly
    when its cell holds [true]. *)
Theorem clicks_keep_booleans (cs : list (string * Js.Event)) :
  let st := clicks cs init in
  ∃ b1 b2, st = {| value := Js.VBool b1; data := Js.VBool b2 |}
           ∧ showsHeading st = b1.
Proof.
  cbn zeta.
  assert (∀ st, (∃ b1 b2, st = {| value := Js.VBool b1; data := Js.VBool b2 |}) ->
                ∃ b1 b2, clicks cs st = {| value := Js.VBool b1; data := Js.VBool b2 |})
    as Hinv.
  { induction cs as [| [label evt] cs IH]; intros st Hst; [exact Hst |].
    cbn. apply IH. destruct Hst as (b1 & b2 & ->). apply click_keeps_booleans. }
  destruct (Hinv init) as (b1 & b2 & Hst); [by exists true, true |].
  exists b1, b2. split; [exact Hst |].
  rewrite Hst. by destruct b1, b2.
Qed.

(** X2: the two toggles do not interfere.  The three buttons of the first
    heading leave the second cell alone, the three buttons of the second
    heading leave the first cell alone, and a click on anything else on
    the page changes nothing. *)
Theorem headings_independent (label : string) (evt : Js.Event) (st : State) :
  (label ∈ firstButtons -> data (click label evt st) = data st)
  ∧ (label ∈ secondButtons -> value (click label evt st) = value st)
  ∧ (label ∉ firstButtons ++ secondButtons -> click label evt st = st).
Proof.
  rewrite click_cases. unfold firstButtons, secondButtons.
  split; [| split].
  - intros Hin. repeat (apply elem_of_cons in Hin as [-> | Hin]; [reflexivity |]).
    by apply elem_of_nil in Hin.
  - intros Hin. repeat (apply elem_of_cons in Hin as [-> | Hin]; [reflexivity |]).
    by apply elem_of_nil in Hin.
  - intros Hnot.
    repeat match goal with
           | |- context [String.eqb ?a label] =>
               destruct (String.eqb_spec a label) as [<- | _];
               [exfalso; apply Hnot; cbn; apply list_elem_of_In; cbn; tauto |]
           end.
    reflexivity.
Qed.

Lemma headings_independent_witness :
  "Hide 2nd Heading" ∈ secondButtons
  ∧ value (click "Hide 2nd Heading" (Js.mkEvent "" false) init) = Js.VBool true.
Proof.
  assert (H : "Hide 2nd Heading" ∈ secondButtons)
    by (unfold secondButtons; apply list_elem_of_In; cbn; tauto).
  split; [exact H |].
  exact (proj1 (proj2 (headings_independent "Hide 2nd Heading"
                         (Js.mkEvent "" false) init)) H).
Defined.

(** X3: two clicks on 'Toggle Heading' store the truth value of what was
    stored before: a boolean is restored, anything else (a default that is
    not a boolean) has become the boolean it counts as. *)
Theorem toggle_twice_restores (v d : Js.value) (evt evt' : Js.Event) :
  let st := {| value := v; data := d |} in
  click "Toggle Heading" evt' (click "Toggle Heading" evt st)
  = {| value := Js.VBool (Js.truthy v); data := d |}
  ∧ (∀ b, v = Js.VBool b ->
          click "Toggle Heading" evt' (click "Toggle Heading" evt st) = st).
Proof.
  cbn zeta. rewrite !click_cases. cbn.
  unfold Js.not. cbn [Js.truthy].
  split; [by rewrite negb_involutive |].
  intros b ->. cbn. by rewrite negb_involutive.
Qed.

End CustomHooksRunProperties.

(** ** The page around InputHandling *)

Section InputHandlingPageProperties.
Import InputHandling InputHandlingPage.

(** Expose the tree of [document st] with the parts that depend on the
    state kept abstract. *)
Ltac open_document st :=
  unfold document, InputHandling.InputHandling, checkbox, radio, opt;
  let g := fresh "g" in
  let j := fresh "j" in
  set (g := String.eqb (gender st)); clearbody g;
  set (j := Js.join ", " (skills st)); clearbody j.

Lemma checkbox_query (id : string) (st : State) :
  querySelectorAll
    (fun d => isTag "input" d && attrIs "type" "checkbox" d && attrIs "id" id d)
    (document st)
  = filter (fun d => attrIs "id" id d = true)
      (querySelectorAll (fun d => isTag "input" d && attrIs "type" "checkbox" d)
         (document st)).
Proof.
  apply (querySelectorAll_and
           (fun d => isTag "input" d && attrIs "type" "checkbox" d) (attrIs "id" id)).
Qed.

Lemma checkbox_absent (id : string) (st : State) :
  valueOf checkboxes id = None ->
  querySelectorAll
    (fun d => isTag "input" d && attrIs "type" "checkbox" d && attrIs "id" id d)
    (document st) = [].
Proof.
  unfold checkboxes, valueOf.
  repeat match goal with
         | |- context [String.eqb ?a id] =>
             destruct (String.eqb a id) eqn:?; [discriminate |]
         end.
  intros _. rewrite checkbox_query. open_document st.
  fold_attrIs State "id" id. cbn.
  repeat match goal with H : _ = false |- _ => rewrite H; clear H end.
  reflexivity.
Qed.

Lemma checkbox_present (id value : string) (st : State) :
  valueOf checkboxes id = Some value ->
  (id, value) ∈ checkboxes
  ∧ ∃ d rest,
      querySelectorAll
        (fun d => isTag "input" d && attrIs "type" "checkbox" d && attrIs "id" id d)
        (document st) = d :: rest.
Proof.
  unfold checkboxes, valueOf.
  repeat match goal with
         | |- context [String.eqb ?a id] =>
             destruct (String.eqb_spec a id) as [<- | _];
             [intros [= <-]; split;
              [apply list_elem_of_In; cbn; tauto | by eexists _, _] |]
         end.
  discriminate.
Qed.

Lemma toggleCheckbox_cases (id : string) (checked : bool) (st : State) :
  toggleCheckbox id checked st =
  match valueOf checkboxes id with
  | Some value =>
      {| skills := onHandleChange (skills st) (Js.mkEvent value checked);
         gender := gender st; city := city st |}
  | None => st
  end.
Proof.
  destruct (valueOf checkboxes id) as [value |] eqn:Hid.
  - apply toggleCheckbox_handler. by apply checkbox_present.
  - unfold toggleCheckbox, dispatch. by rewrite checkbox_absent.
Qed.

Lemma clickCheckbox_cases (id : string) (p : Page) :
  clickCheckbox id p =
  match valueOf checkboxes id with
  | Some value =>
      let checked := bool_decide (id ∉ ticked p) in
      {| state :=
           {| skills := onHandleChange (skills (state p)) (Js.mkEvent value checked);
              gender := gender (state p); city := city (state p) |};
         ticked := if checked then {[id]} ∪ ticked p else ticked p ∖ {[id]} |}
  | None => p
  end.
Proof.
  unfold clickCheckbox, isCheckbox. rewrite toggleCheckbox_cases.
  destruct (valueOf checkboxes id) as [value |] eqn:Hid.
  - destruct (checkbox_present id value (state p) Hid) as (_ & d & rest & ->).
    reflexivity.
  - by rewrite checkbox_absent.
Qed.

(** No two checkboxes share an id or a value. *)
Lemma checkboxes_injective (id id' value value' : string) :
  (id, value) ∈ checkboxes -> (id', value') ∈ checkboxes ->
  (id = id' ↔ value = value').
Proof.
  unfold checkboxes. intros H H'.
  repeat (apply elem_of_cons in H as [[= -> ->] | H]);
    try (by apply elem_of_nil in H);
    repeat (apply elem_of_cons in H' as [[= -> ->] | H']);
    try (by apply elem_of_nil in H'); split; (done || discriminate).
Qed.

Lemma valueOf_elem (id value : string) :
  (id, value) ∈ checkboxes -> valueOf checkboxes id = Some value.
Proof.
  unfold checkboxes. intros H.
  repeat (apply elem_of_cons in H as [[= -> ->] | H]; [reflexivity |]).
  by apply elem_of_nil in H.
Qed.

Lemma chooseRadio_cases (id : string) (st : State) :
  chooseRadio id st =
  match valueOf radios id with
  | Some value => {| skills := skills st; gender := value; city := city st |}
  | None => st
  end.
Proof.
  unfold radios, valueOf.
  repeat match goal with
         | |- context [String.eqb ?a id] =>
             destruct (String.eqb_spec a id) as [<- | ?H]; [reflexivity |]
         end.
  repeat match goal with H : _ ≠ id |- _ => apply String.eqb_neq in H end.
  unfold chooseRadio, isRadio, dispatch.
  rewrite (querySelectorAll_and
             (fun d => isTag "input" d && attrIs "type" "radio" d) (attrIs "id" id)).
  open_document st. fold_attrIs State "id" id. cbn.
  repeat match goal with H : _ = false |- _ => rewrite H; clear H end.
  reflexivity.
Qed.

Lemma optionValues_cities (st : State) : optionValues st = cities.
Proof. reflexivity. Qed.

Lemma chooseCity_cases (v : string) (st : State) :
  chooseCity v st =
  if bool_decide (v ∈ cities) then
    {| skills := skills st; gender := gender st; city := v |}
  else st.
Proof.
  unfold chooseCity. rewrite optionValues_cities.
  by destruct (bool_decide (v ∈ cities)).
Qed.

(** The radio buttons shown checked are those whose value is the stored
    gender. *)
Lemma checkedRadios_gender (st : State) :
  checkedRadios st = filter (fun v => String.eqb (gender st) v = true) genders.
Proof.
  unfold checkedRadios, genders. open_document st.
  cbn. by destruct (g "Male"), (g "Female"), (g "Other").
Qed.

Lemma act_synced (a : action) (p : Page) : synced p -> synced (act a p).
Proof.
  intros (Hnodup & Hsync & Hvalues).
  destruct a as [id | id | v]; cbn [act].
  - rewrite clickCheckbox_cases.
    destruct (valueOf checkboxes id) as [value |] eqn:Hid; [| done].
    apply checkbox_present with (st := state p) in Hid as [Hin _].
    cbn zeta. unfold synced. cbn [state ticked skills].
    destruct (decide (id ∈ ticked p)) as [Hticked | Hticked].
    + rewrite bool_decide_eq_false_2 by (by intros []).
      cbn [onHandleChange Js.target_checked Js.target_value].
      split; [by apply NoDup_filter |]. split.
      * intros id' value' Hin'. rewrite list_elem_of_filter, elem_of_difference.
        rewrite elem_of_singleton, (Hsync id' value' Hin').
        pose proof (checkboxes_injective id id' value value' Hin Hin') as Hinj.
        destruct Hinj as [Hinj1 Hinj2]. split.
        -- intros [Hne Ht]. split; [done |]. intros ->.
           apply Hne. symmetry. by apply Hinj1.
        -- intros [Ht Hne]. split; [| done]. intros ->.
           apply Hne. symmetry. by apply Hinj2.
      * intros v [_ Hv]%list_elem_of_filter. by apply Hvalues.
    + rewrite bool_decide_eq_true_2 by done.
      cbn [onHandleChange Js.target_checked Js.target_value].
      split; [| split].
      * apply NoDup_app. split; [done |]. split; [| apply NoDup_singleton].
        intros x Hx Hx'%list_elem_of_singleton. subst x.
        by apply Hticked, (Hsync id value).
      * intros id' value' Hin'. rewrite elem_of_app, elem_of_union.
        rewrite list_elem_of_singleton, elem_of_singleton, (Hsync id' value' Hin').
        pose proof (checkboxes_injective id id' value value' Hin Hin') as Hinj.
        destruct Hinj as [Hinj1 Hinj2]. split.
        -- intros [Ht | ->]; [by right | left]. symmetry. by apply Hinj2.
        -- intros [-> | Ht]; [right | by left]. symmetry. by apply Hinj1.
      * intros v [Hv | ->%list_elem_of_singleton]%elem_of_app; [by apply Hvalues |].
        apply list_elem_of_fmap. by exists (id, value).
  - rewrite chooseRadio_cases. by destruct (valueOf radios id).
  - rewrite chooseCity_cases. by destruct (bool_decide (v ∈ cities)).
Qed.

Lemma run_synced (acts : list action) (p : Page) : synced p -> synced (run acts p).
Proof.
  revert p. induction acts as [| a acts IH]; intros p Hp; [done |].
  cbn. by apply IH, act_synced.
Qed.

(** X4: however the user clicks the checkboxes, picks radio buttons and
    picks cities, the skills list agrees with the boxes ticked in the
    browser: it holds the value of a checkbox exactly when that box is
    ticked, holds nothing else, and holds no entry twice. *)
Theorem skills_agree_with_ticked_boxes (acts : list action) :
  synced (run acts initPage).
Proof.
  apply run_synced. split; [apply NoDup_nil_2 |]. split.
  - intros id value _. cbn. split; [by intros ?%elem_of_nil | by intros ?%not_elem_of_empty].
  - by intros v ?%elem_of_nil.
Qed.

Lemma act_choices (a : action) (p : Page) :
  gender (state p) ∈ genders ∧ city (state p) ∈ cities ->
  gender (state (act a p)) ∈ genders ∧ city (state (act a p)) ∈ cities.
Proof.
  intros [Hgender Hcity]. destruct a as [id | id | v]; cbn [act state].
  - rewrite clickCheckbox_cases. by destruct (valueOf checkboxes id).
  - rewrite chooseRadio_cases. unfold radios, valueOf, genders.
    repeat match goal with
           | |- context [String.eqb ?a id] => destruct (String.eqb a id)
           end; cbn [gender city];
      (split; [apply list_elem_of_In; cbn; tauto | done]) || done.
  - rewrite chooseCity_cases. destruct (bool_decide_reflect (v ∈ cities)); done.
Qed.

(** X5: whatever the user does on the page, the stored gender is the value
    of one of the three radio buttons and exactly that one radio button is
    rendered checked, and the stored city is one of the five options. *)
Theorem exactly_one_radio_checked (acts : list action) :
  let st := state (run acts initPage) in
  gender st ∈ genders ∧ checkedRadios st = [gender st] ∧ city st ∈ cities.
Proof.
  cbn zeta.
  assert (∀ p, gender (state p) ∈ genders ∧ city (state p) ∈ cities ->
               gender (state (run acts p)) ∈ genders
               ∧ city (state (run acts p)) ∈ cities) as Hrun.
  { induction acts as [| a acts IH]; intros p Hp; [done |].
    cbn. by apply IH, act_choices. }
  destruct (Hrun initPage) as [Hgender Hcity].
  { split; apply list_elem_of_In; cbn; tauto. }
  split; [done |]. split; [| done].
  rewrite checkedRadios_gender. unfold genders in *.
  repeat (apply elem_of_cons in Hgender as [-> | Hgender]; [reflexivity |]).
  by apply elem_of_nil in Hgender.
Qed.

Lemma filter_absent (v : string) (l : list string) :
  v ∉ l -> filter (fun s => s ≠ v) l = l.
Proof.
  induction l as [| x l IH]; [done |].
  intros [Hx Hl]%not_elem_of_cons.
  rewrite filter_cons_True by done. by rewrite IH.
Qed.

(** X6: ticking a box whose value is not yet listed and unticking it again
    gives back the state before, and unticking a box whose value is not
    listed changes nothing. *)
Theorem check_then_uncheck_restores (id value : string) (st : State) :
  (id, value) ∈ checkboxes -> value ∉ skills st ->
  toggleCheckbox id false (toggleCheckbox id true st) = st
  ∧ toggleCheckbox id false st = st.
Proof.
  intros Hin Hv. rewrite !(toggleCheckbox_handler id value) by done.
  cbn [skills gender city].
  rewrite !onHandleChange_unchecked, onHandleChange_checked.
  rewrite filter_app, filter_absent by done.
  rewrite filter_cons_False, filter_nil, app_nil_r by (by intros []).
  by destruct st.
Qed.

Lemma check_then_uncheck_restores_witness :
  ("vuejs", "VueJs") ∈ checkboxes
  ∧ ("VueJs" ∉ skills (toggleCheckbox "react" true init))
  ∧ toggleCheckbox "vuejs" false
      (toggleCheckbox "vuejs" true (toggleCheckbox "react" true init))
    = toggleCheckbox "react" true init.
Proof.
  assert (H1 : ("vuejs", "VueJs") ∈ checkboxes)
    by (apply list_elem_of_In; cbn; tauto).
  assert (H2 : "VueJs" ∉ skills (toggleCheckbox "react" true init))
    by (cbn; intros [= ]%list_elem_of_singleton).
  split; [exact H1 |]. split; [exact H2 |].
  exact (proj1 (check_then_uncheck_restores "vuejs" "VueJs" _ H1 H2)).
Defined.

End InputHandlingPageProperties.

(** ** ArrayState: references *)

Section ArrayStateReferences.
Import ArrayState.


(** X8: on an empty hobbies list the store names the property "-1", which
    is no element: the stored list is empty again, whatever was typed. *)
Theorem updateLastHobby_empty (h : string) (st : State) :
  hobbiesOf st = [] -> hobbiesOf (updateLastHobby h st) = [].
Proof.
  intros Hempty. rewrite hobbiesOf_updateLastHobby, Hempty. reflexivity.
Qed.

Lemma updateLastHobby_empty_witness :
  let st := {| name := ""; hobbies := 7; hobbyDetails := []; heap := {[ 7 := [] ]} |} in
  hobbiesOf st = [] ∧ hobbiesOf (updateLastHobby "Chess" st) = [].
Proof.
  intros st. assert (H : hobbiesOf st = []) by reflexivity.
  split; [exact H |]. exact (updateLastHobby_empty "Chess" st H).
Defined.

End ArrayStateReferences.

(** ** ArrayState: [updateLastHobbyName] *)

Section HobbyDetailsProperties.
Import HobbyDetails.

Example updateLastHobbyName_init :
  (fun st => read st (hobbyDetails st)) <$> updateLastHobbyName "Films" init
  = Some [ Some (mkDetail "Reading" "Night 🌃");
           Some (mkDetail "Coding" "Morning 🌄");
           Some (mkDetail "Films" "Evening 🌆") ].
Proof. vm_compute. reflexivity. Qed.

Lemma last_index (arr : list nat) (o : nat) :
  last arr = Some o ->
  (Z.of_nat (length arr) - 1 <? 0)%Z = false
  ∧ Z.to_nat (Z.of_nat (length arr) - 1) = pred (length arr)
  ∧ arr !! pred (length arr) = Some o.
Proof.
  intros Hlast. rewrite last_lookup in Hlast.
  assert (0 < length arr).
  { destruct arr; [discriminate | cbn; lia]. }
  split; [apply Z.ltb_ge; lia |]. split; [lia | done].
Qed.

(** X9: on a non-empty array of distinct objects, [updateLastHobbyName]
    stores a fresh array that reads like the old one with the name of the
    last object replaced and its time kept.  The copy is shallow: the
    object is written in place, so the array of the previous state reads
    exactly like the new one. *)
Theorem updateLastHobbyName_shallow_copy
    (name' : string) (st : State) (arr : list nat) (o : nat) (d : Detail) :
  arrays st !! hobbyDetails st = Some arr -> last arr = Some o ->
  objects st !! o = Some d -> NoDup arr ->
  ∃ st', updateLastHobbyName name' st = Some st'
    ∧ hobbyDetails st' ≠ hobbyDetails st
    ∧ read st' (hobbyDetails st')
      = <[pred (length arr) := Some {| name := name'; time := time d |}]>
          (read st (hobbyDetails st))
    ∧ read st' (hobbyDetails st) = read st' (hobbyDetails st').
Proof.
  intros Harr Hlast Hobj Hnodup.
  destruct (last_index arr o Hlast) as (Hneg & Hidx & Hlookup).
  unfold updateLastHobbyName. rewrite Harr. cbn [default from_option id].
  rewrite Hneg, Hidx, Hlookup. cbn [mbind option_bind]. rewrite Hobj.
  cbn [fmap option_fmap option_map].
  eexists. split; [reflexivity |].
  assert (fresh (dom (arrays st)) ≠ hobbyDetails st) as Hfresh.
  { intros Heq. apply (is_fresh (dom (arrays st))). rewrite Heq.
    apply elem_of_dom. eauto. }
  split; [exact Hfresh |].
  unfold read. cbn [hobbyDetails arrays objects].
  rewrite lookup_insert_eq, lookup_insert_ne, Harr by done.
  cbn [default from_option id]. split; [| reflexivity].
  apply list_eq. intros j. rewrite list_lookup_fmap.
  destruct (decide (j = pred (length arr))) as [-> | Hj].
  - rewrite Hlookup. cbn. rewrite lookup_insert_eq.
    rewrite list_lookup_insert_eq; [done |].
    rewrite length_fmap. apply lookup_lt_Some in Hlookup. lia.
  - rewrite list_lookup_insert_ne, list_lookup_fmap by done.
    destruct (arr !! j) as [o' |] eqn:Hj'; [cbn | done].
    rewrite lookup_insert_ne; [done |].
    intros <-. apply Hj. by apply (NoDup_lookup arr j (pred (length arr)) o).
Qed.

Lemma updateLastHobbyName_shallow_copy_witness :
  arrays init !! hobbyDetails init = Some [0; 1; 2] ∧ last [0; 1; 2] = Some 2
  ∧ objects init !! 2 = Some (mkDetail "Movies" "Evening 🌆") ∧ NoDup [0; 1; 2]
  ∧ ∃ st', updateLastHobbyName "Films" init = Some st'
           ∧ read st' (hobbyDetails init) = read st' (hobbyDetails st').
Proof.
  assert (H1 : arrays init !! hobbyDetails init = Some [0; 1; 2]) by reflexivity.
  assert (H2 : last [0; 1; 2] = Some 2) by reflexivity.
  assert (H3 : objects init !! 2 = Some (mkDetail "Movies" "Evening 🌆")) by reflexivity.
  assert (H4 : NoDup [0; 1; 2])
    by (apply NoDup_ListNoDup; repeat constructor; cbn; lia).
  do 4 (split; [assumption |]).
  destruct (updateLastHobbyName_shallow_copy "Films" init _ _ _ H1 H2 H3 H4)
    as (st' & Hst' & _ & _ & Hshared).
  by exists st'.
Defined.

(** X10: on an empty array [hobbyDetails[-1]] is undefined and assigning
    its [name] throws: [updateLastHobbyName] stores nothing. *)
Theorem updateLastHobbyName_empty_throws (name' : string) (st : State) :
  arrays st !! hobbyDetails st = Some [] -> updateLastHobbyName name' st = None.
Proof.
  intros Harr. unfold updateLastHobbyName. by rewrite Harr.
Qed.

Lemma updateLastHobbyName_empty_throws_witness :
  arrays empty !! hobbyDetails empty = Some []
  ∧ updateLastHobbyName "Films" empty = None.
Proof.
  assert (H : arrays empty !! hobbyDetails empty = Some []) by reflexivity.
  split; [exact H |]. exact (updateLastHobbyName_empty_throws "Films" empty H).
Defined.

End HobbyDetailsProperties.

(** ** DigitalClock: any life of the page *)

Section DigitalClockRunProperties.
Import DigitalClock DigitalClockRun.




End DigitalClockRunProperties.

(** ** ClockContainer *)

Section ClockContainerProperties.
Import ClockContainer.

(** X12: the colour picked in the drop-down of [ClockContainer] reaches the
    clock as a prop: the face of the clock has that colour and still shows
    the time it showed; a value that is not among the eight options cannot
    be picked, and the face starts out yellow. *)
Theorem picked_colour_reaches_clock
    (v : string) (currTime : DigitalClock.State) (clockClr : State) :
  face (document currTime (chooseColour v currTime clockClr))
  = Some (if bool_decide (v ∈ colours) then v else clockClr, currTime)
  ∧ face (document currTime init) = Some ("yellow", currTime).
Proof.
  unfold chooseColour.
  change (optionValues currTime clockClr) with colours.
  by destruct (bool_decide (v ∈ colours)).
Qed.

End ClockContainerProperties.

(** ** Numbers that are integers *)

Section JsNumProperties.
Import JsNum.

Lemma MAX_value : MAX = 9007199254740992%Z.
Proof. reflexivity. Qed.

Lemma add_exact (a b : Z) : safe (a + b) -> add a b = (a + b)%Z.
Proof.
  unfold safe, add. rewrite MAX_value. intros H. cbn zeta.
  destruct (Z.leb_spec (Z.abs (a + b)) 9007199254740992); [done | lia].
Qed.

Example add_past_max : add MAX 1 = MAX ∧ add (- MAX) (-1) = (- MAX)%Z
                       ∧ add MAX 3 = (MAX + 4)%Z.
Proof. by vm_compute. Qed.

End JsNumProperties.

(** ** UseEffect *)

Section UseEffectProperties.
Import Hooks UseEffect.

Lemma click_unfold (p : Page) :
  click p
  = {| counter := JsNum.add (counter p) 1;
       out := rerender effects (counter p) (JsNum.add (counter p) 1) (out p) |}.
Proof. reflexivity. Qed.

Lemma rerender_counter (c c' : Z) (o : console) :
  rerender effects c c' o = if decide (c = c') then o else log changeMsg o.
Proof.
  unfold rerender, effects, changed. cbn [List.filter deps].
  rewrite (bool_decide_eq_true_2 ([] = [])) by done. cbn [negb].
  destruct (decide (c = c')) as [-> | Hne].
  - by rewrite bool_decide_eq_true_2.
  - rewrite bool_decide_eq_false_2; [done |]. by intros [= ].
Qed.

Lemma clicks_counter (n : nat) :
  (Z.of_nat n <= JsNum.MAX)%Z ->
  Nat.iter n click start
  = {| counter := Z.of_nat n; out := onceMsg :: replicate (S n) changeMsg |}.
Proof.
  induction n as [| n IH]; intros Hn; [reflexivity |].
  change (Nat.iter (S n) click start) with (click (Nat.iter n click start)).
  rewrite IH by lia. rewrite click_unfold. cbn [counter out].
  rewrite add_exact by (unfold JsNum.safe; lia).
  rewrite rerender_counter. destruct (decide _) as [? | _]; [lia |].
  f_equal; [lia |]. unfold log. cbn [app]. f_equal.
  by rewrite <- !replicate_S_end.
Qed.

(** X13: after the first render and [n] clicks on the button (at most
    2^53 of them) the counter is [n] and the button reads 'Counter: n ';
    the effect without dependencies has printed its line once, the effect
    that depends on the counter once after the first render and once per
    click.  At 2^53 the counter is stuck: adding 1 gives the same double,
    so a click changes nothing and no effect runs. *)
Theorem counter_counts_clicks (n : nat) :
  (Z.of_nat n <= JsNum.MAX)%Z ->
  let p := Nat.iter n click start in
  counter p = Z.of_nat n
  ∧ out p = onceMsg :: replicate (S n) changeMsg
  ∧ buttonText p = "Counter: " +:+ pretty (Z.of_nat n) +:+ " "
  ∧ ∀ o, click {| counter := JsNum.MAX; out := o |} = {| counter := JsNum.MAX; out := o |}.
Proof.
  intros Hn. cbn zeta. rewrite clicks_counter by done.
  split; [done |]. split; [done |]. split; [reflexivity |].
  intros o. rewrite click_unfold. cbn [counter out].
  replace (JsNum.add JsNum.MAX 1) with JsNum.MAX by by vm_compute.
  rewrite rerender_counter. by destruct (decide _).
Qed.

Lemma counter_counts_clicks_witness :
  (Z.of_nat 3 <= JsNum.MAX)%Z
  ∧ out (Nat.iter 3 click start) = [onceMsg; changeMsg; changeMsg; changeMsg; changeMsg]
  ∧ buttonText (Nat.iter 3 click start) = "Counter: 3 ".
Proof.
  assert (H : (Z.of_nat 3 <= JsNum.MAX)%Z) by (by vm_compute).
  split; [exact H |].
  destruct (counter_counts_clicks 3 H) as (_ & Hout & Htext & _).
  split; [exact Hout | exact Htext].
Defined.

End UseEffectProperties.

(** ** UseEffect2 and UseEffect3 *)

Section EffectLogs.
Import Hooks.










End EffectLogs.

(** ** useTheme, useCounter, useDocumentTitle *)

Section NotesHooks.
Import Hooks.

Lemma flush_app {A} (q1 q2 : list (update A)) (s : A) :
  flush (q1 ++ q2) s = flush q2 (flush q1 s).
Proof. apply foldl_app. Qed.

Lemma toggleTheme_parity (k : nat) :
  flush (replicate k UseTheme.toggleTheme) "light"
  = (if Nat.even k then "light" else "dark")
  ∧ flush (replicate k UseTheme.toggleTheme) "dark"
    = (if Nat.even k then "dark" else "light").
Proof.
  induction k as [| k [IHl IHd]]; [done |].
  rewrite Nat.even_succ, <- Nat.negb_even.
  change (replicate (S k) UseTheme.toggleTheme)
    with ([UseTheme.toggleTheme] ++ replicate k UseTheme.toggleTheme).
  rewrite !flush_app.
  change (flush [UseTheme.toggleTheme] "light") with "dark".
  change (flush [UseTheme.toggleTheme] "dark") with "light".
  rewrite IHl, IHd. by destruct (Nat.even k).
Qed.

Lemma rerender_theme (old new : UseTheme.State) (cls : UseTheme.Body) :
  rerender UseTheme.effects old new cls = if decide (old = new) then cls else new.
Proof.
  unfold rerender, UseTheme.effects, changed. cbn [List.filter deps].
  destruct (decide (old = new)) as [-> | Hne].
  - by rewrite bool_decide_eq_true_2.
  - rewrite bool_decide_eq_false_2; [done |]. by intros [= ].
Qed.

Lemma run_theme (batches : list nat) :
  ∀ p, UseTheme.className p = UseTheme.theme p ->
       UseTheme.theme (UseTheme.run batches p)
       = flush (replicate (sum_list batches) UseTheme.toggleTheme) (UseTheme.theme p)
       ∧ UseTheme.className (UseTheme.run batches p)
         = UseTheme.theme (UseTheme.run batches p).
Proof.
  induction batches as [| k batches IH]; intros p Hp; [done |].
  cbn [UseTheme.run foldl sum_list sum_list_with].
  destruct (IH (UseTheme.toggles k p)) as [Htheme Hcls].
  { unfold UseTheme.toggles. cbn [UseTheme.theme UseTheme.className].
    rewrite rerender_theme. destruct (decide _) as [Heq | _]; [| done].
    by rewrite Hp. }
  split; [| exact Hcls].
  unfold UseTheme.run in Htheme. rewrite Htheme.
  unfold UseTheme.toggles. cbn [UseTheme.theme].
  by rewrite replicate_add, flush_app.
Qed.

(** X16: [useTheme] starts light; however the calls of [toggleTheme] fall
    into renders, the updaters compose: after an even number of calls the
    theme is "light", after an odd number "dark"; after every render the
    class of the document body is the theme, and the heading of [App]
    names it. *)
Theorem theme_follows_parity (cls : UseTheme.Body) (batches : list nat) :
  let p := UseTheme.run batches (UseTheme.start cls) in
  UseTheme.theme p = (if Nat.even (sum_list batches) then "light" else "dark")
  ∧ UseTheme.className p = UseTheme.theme p
  ∧ UseTheme.heading (UseTheme.theme p)
    = "Current Theme: "
      +:+ (if Nat.even (sum_list batches) then "🌞 Light" else "🌙 Dark").
Proof.
  cbn zeta. destruct (run_theme batches (UseTheme.start cls)) as [Htheme Hcls];
    [reflexivity |].
  assert (UseTheme.theme (UseTheme.run batches (UseTheme.start cls))
          = if Nat.even (sum_list batches) then "light" else "dark") as Hparity.
  { rewrite Htheme. apply toggleTheme_parity. }
  split; [exact Hparity |]. split; [exact Hcls |].
  rewrite Hparity. by destruct (Nat.even _).
Qed.

(** X17: [increment] of [useCounter] hands [setCount] the value
    [count + 1] of the render that created it: called [k] times before
    the next render it adds one, not [k], and a [decrement] called after
    it in the same render wins.  The updater form [prev => prev + 1] adds
    [k]. *)
Theorem closure_increment_adds_once (count : Z) (k : nat) :
  0 < k -> (0 <= count)%Z -> (count + Z.of_nat k <= JsNum.MAX)%Z ->
  flush (replicate k (UseCounter.increment count)) count = (count + 1)%Z
  ∧ flush (replicate k UseCounter.incrementPrev) count = (count + Z.of_nat k)%Z
  ∧ flush [UseCounter.increment count; UseCounter.decrement count] count
    = (count - 1)%Z.
Proof.
  intros Hk Hcount Hmax. rewrite MAX_value in Hmax. split; [| split].
  - destruct k as [| k]; [lia |]. rewrite replicate_S_end, flush_app.
    cbn. apply add_exact. unfold JsNum.safe. rewrite MAX_value. lia.
  - clear Hk. revert count Hcount Hmax.
    induction k as [| k IH]; intros count Hcount Hmax; [cbn; lia |].
    change (replicate (S k) UseCounter.incrementPrev)
      with ([UseCounter.incrementPrev] ++ replicate k UseCounter.incrementPrev).
    rewrite flush_app. cbn [flush foldl applyUpdate UseCounter.incrementPrev].
    rewrite add_exact by (unfold JsNum.safe; rewrite MAX_value; lia).
    fold (flush (replicate k UseCounter.incrementPrev) (count + 1)%Z).
    rewrite IH by lia. lia.
  - cbn. rewrite (add_exact count (-1)); [lia |].
    unfold JsNum.safe. rewrite MAX_value. lia.
Qed.

Lemma closure_increment_adds_once_witness :
  0 < 3 ∧ (0 <= 10)%Z ∧ (10 + Z.of_nat 3 <= JsNum.MAX)%Z
  ∧ flush (replicate 3 (UseCounter.increment 10)) 10%Z = 11%Z
  ∧ flush (replicate 3 UseCounter.incrementPrev) 10%Z = 13%Z.
Proof.
  assert (H1 : 0 < 3) by lia.
  assert (H2 : (0 <= 10)%Z) by lia.
  assert (H3 : (10 + Z.of_nat 3 <= JsNum.MAX)%Z) by (by vm_compute).
  do 3 (split; [assumption |]).
  destruct (closure_increment_adds_once 10 3 H1 H2 H3) as (Ha & Hb & _).
  split; [exact Ha | exact Hb].
Defined.



End NotesHooks.

(** ** The App around useFetch *)

Section FetchAppProperties.
Import UseFetch FetchApp.
Variable fetch : string -> settled Response.

Example App_served :
  shown (S := unit) (App (useFetch served "/posts")) = Some ["hello"].
Proof. reflexivity. Qed.

(** X19: [App] shows 'Loading...' until the call is over.  After a failed
    call it shows 'Error: ' and the message of the error; but the test is
    [if (error)], so with an empty message it goes on to [data.map] on
    the null data and rendering throws. *)
Theorem App_after_failed_call (url : string) (e : Error) :
  failure (fetch url) = Some e ->
  App (S := unit) init = Some (Elem "p" [] [Text "Loading..."])
  ∧ App (S := unit) (useFetch fetch url)
    = if String.eqb (message e) "" then None
      else Some (Elem "p" [] [Text "Error: "; Text (message e)]).
Proof.
  intros Hfail. split; [reflexivity |].
  unfold useFetch. rewrite (effect_failure fetch url init e Hfail).
  unfold App. cbn. by destruct (String.eqb (message e) "").
Qed.

Lemma mapM_item {S} (posts : list (Z * string)) :
  mapM (item (S := S)) ((fun p => post p.1 p.2) <$> posts)
  = Some ((fun p => Elem "li" [] [Text p.2]) <$> posts).
Proof.
  induction posts as [| [id title] posts IH]; [reflexivity |].
  cbn [fmap list_fmap mapM]. rewrite IH. reflexivity.
Qed.

Lemma rendered_items {S} (posts : list (Z * string)) :
  flat_map (select (isTag "li"))
    (flat_map (render (S := S) Js.VUndefined)
       ((fun p => Elem "li" [] [Text p.2]) <$> posts))
  = (fun p => HElem "li" [] [HText p.2]) <$> posts.
Proof.
  induction posts as [| [id title] posts IH]; [reflexivity |].
  cbn [fmap list_fmap flat_map]. cbn [fmap list_fmap] in IH.
  rewrite flat_map_app, IH. reflexivity.
Qed.

Lemma shown_list {S} (posts : list (Z * string)) :
  map textContent
    (querySelectorAll (isTag "li")
       (render (S := S) Js.VUndefined
          (Elem "div" []
             [ Elem "h1" [] [Text "Posts"];
               Elem "ul" [] ((fun p => Elem "li" [] [Text p.2]) <$> posts) ])))
  = posts.*2.
Proof.
  transitivity
    (map (textContent (S := S)) ((fun p => HElem "li" [] [HText p.2]) <$> posts)).
  - rewrite <- rendered_items.
    set (lis := flat_map (select (isTag "li")) _).
    change (querySelectorAll _ _) with ((lis ++ []) ++ []). by rewrite !app_nil_r.
  - induction posts as [| [id title] posts IH]; [reflexivity |].
    cbn [fmap list_fmap map]. cbn [fmap list_fmap] in IH. by rewrite IH.
Qed.

(** X20: after a call that succeeded with an array of posts, [App] lists
    the titles of the posts, one item each, in the order of the array. *)
Theorem App_lists_titles (url : string) (resp : Response) (posts : list (Z * string)) :
  fetch url = Fulfilled resp -> ok resp = true ->
  json_body resp = Fulfilled (JArr ((fun p => post p.1 p.2) <$> posts)) ->
  shown (S := unit) (App (useFetch fetch url)) = Some (posts.*2).
Proof.
  intros Hresp Hok Hbody. unfold useFetch.
  rewrite (effect_success fetch url init resp _ Hresp Hok Hbody).
  unfold App, shown, items. cbn [loading error data init].
  rewrite mapM_item. cbn [fmap option_fmap option_map]. by rewrite shown_list.
Qed.

End FetchAppProperties.

Lemma App_after_failed_call_witness :
  UseFetch.failure (UseFetch.down "/posts") = Some (UseFetch.mkError "Failed to fetch")
  ∧ FetchApp.App (S := unit) (UseFetch.useFetch UseFetch.down "/posts")
    = Some (Elem "p" [] [Text "Error: "; Text "Failed to fetch"]).
Proof.
  split; [reflexivity |].
  exact (proj2 (App_after_failed_call UseFetch.down "/posts" _ eq_refl)).
Defined.

Lemma App_lists_titles_witness :
  UseFetch.served "/posts"
  = UseFetch.Fulfilled (UseFetch.mkResponse true (UseFetch.Fulfilled UseFetch.posts))
  ∧ FetchApp.shown (S := unit) (FetchApp.App (UseFetch.useFetch UseFetch.served "/posts"))
    = Some ["hello"].
Proof.
  split; [reflexivity |].
  exact (App_lists_titles UseFetch.served "/posts" _ [(1%Z, "hello")]
           eq_refl eq_refl eq_refl).
Defined.

Section SecondFetch.
Import UseFetch FetchApp.
Variable fetch : string -> settled Response.

(** X21: the second [useFetch] of the notes does not look at
    [response.ok].  When the server answers with an error status and a
    body that parses, it stores that body as data and records no error,
    where the first [useFetch] records 'Network response was not ok' and
    leaves the data alone. *)
Theorem second_useFetch_misses_error_status
    (url : string) (resp : Response) (body : json) (st : State) :
  fetch url = Fulfilled resp -> ok resp = false -> json_body resp = Fulfilled body ->
  effect2 fetch url st = {| data := body; error := error st; loading := false |}
  ∧ effect fetch url st
    = {| data := data st; error := Some "Network response was not ok";
         loading := false |}.
Proof.
  intros Hresp Hok Hbody. split.
  - unfold effect2, fetchData2, try_catch_finally, mbind, M_bind, await.
    rewrite Hresp. cbn. by rewrite Hbody.
  - apply (effect_failure fetch url st (mkError "Network response was not ok")).
    unfold failure. by rewrite Hresp, Hok.
Qed.

End SecondFetch.

Lemma second_useFetch_misses_error_status_witness :
  FetchApp.effect2 FetchApp.not_found_with_body "/posts" UseFetch.init
  = UseFetch.mkState FetchApp.notFoundBody None false
  ∧ UseFetch.effect FetchApp.not_found_with_body "/posts" UseFetch.init
    = UseFetch.mkState UseFetch.JNull (Some "Network response was not ok") false.
Proof.
  exact (second_useFetch_misses_error_status FetchApp.not_found_with_body "/posts"
           _ FetchApp.notFoundBody UseFetch.init eq_refl eq_refl eq_refl).
Defined.

(** ** Context: picking a subject, components outside a provider *)

Section ContextRunProperties.
Import Context ContextRun.

Section Parent.
Variable College : node State.
Hypothesis College_transparent : transparent College.
Hypothesis College_mounts_SubjectComp :
  ∀ ctx, ∃ ctx', mounted ctx College ctx' SubjectComp_body.

Lemma chooseSubject_cases (dflt : Js.value) (v : string) (subject : State) :
  chooseSubject College dflt v subject = if bool_decide (v ∈ subjects) then v else subject.
Proof.
  unfold chooseSubject. change (optionValues College dflt subject) with subjects.
  by destruct (bool_decide (v ∈ subjects)).
Qed.

(** X22: picking one of the four subjects in the drop-down of
    [ParentCtxt] stores it, and the document then has the paragraph of
    [SubjectComp] that reads 'Subject:' followed by the subject picked. *)
Theorem picked_subject_is_shown (dflt : Js.value) (v : string) (subject : State) :
  v ∈ subjects ->
  chooseSubject College dflt v subject = v
  ∧ "Subject:" +:+ v
    ∈ paragraphs (document College dflt (chooseSubject College dflt v subject)).
Proof.
  intros Hv. rewrite chooseSubject_cases, bool_decide_eq_true_2 by done.
  split; [reflexivity |].
  pose (p := HElem (S := State) "p" [] [HText "Subject:"; HText v]).
  assert (p ∈ nodes (document College dflt v)) as Hp.
  { unfold document.
    apply (mounted_render _ _ _ _ (ParentCtxt_mounts_SubjectComp College
             College_transparent College_mounts_SubjectComp dflt v)).
    apply list_elem_of_In. cbn. tauto. }
  unfold paragraphs. rewrite querySelectorAll_nodes.
  change ("Subject:" +:+ v) with (textContent p).
  apply list_elem_of_fmap_2, list_elem_of_filter. by split.
Qed.

End Parent.

Lemma picked_subject_is_shown_witness :
  "Science" ∈ subjects
  ∧ "Subject:Science"
    ∈ paragraphs (document CollegeExample Js.VUndefined
                    (chooseSubject CollegeExample Js.VUndefined "Science" "")).
Proof.
  assert (H : "Science" ∈ subjects) by (apply list_elem_of_In; cbn; tauto).
  split; [exact H |].
  exact (proj2 (picked_subject_is_shown CollegeExample CollegeExample_transparent
                  CollegeExample_mounts_SubjectComp Js.VUndefined "Science" "" H)).
Defined.


End ContextRunProperties.
(** ** UseId *)

Section UseIdProperties.
Import UseId.

Lemma list_ascii_append (s t : string) :
  String.list_ascii_of_string (s +:+ t)
  = String.list_ascii_of_string s ++ String.list_ascii_of_string t.
Proof.
  induction s as [| c s IH]; [reflexivity |].
  change (c :: String.list_ascii_of_string (s +:+ t)
          = c :: (String.list_ascii_of_string s ++ String.list_ascii_of_string t)).
  by rewrite IH.
Qed.

Lemma list_ascii_inj (s t : string) :
  String.list_ascii_of_string s = String.list_ascii_of_string t -> s = t.
Proof.
  intros H. rewrite <- (String.string_of_list_ascii_of_string s), H.
  apply String.string_of_list_ascii_of_string.
Qed.

(** Two strings with the same ending are equal only if they begin alike. *)
Lemma append_suffix_inj (s1 s2 t : string) : s1 +:+ t = s2 +:+ t -> s1 = s2.
Proof.
  intros H%(f_equal String.list_ascii_of_string). rewrite !list_ascii_append in H.
  apply app_inj_2 in H as [H _]; [by apply list_ascii_inj | done].
Qed.

(** Nothing that ends in "name" ends in "password". *)
Lemma name_is_not_password (s1 s2 : string) : s1 +:+ "name" ≠ s2 +:+ "password".
Proof.
  intros H%(f_equal String.list_ascii_of_string). rewrite !list_ascii_append in H.
  apply (f_equal last) in H.
  change (String.list_ascii_of_string "name")
    with (String.list_ascii_of_string "nam" ++ [Ascii.ascii_of_nat 101]) in H.
  change (String.list_ascii_of_string "password")
    with (String.list_ascii_of_string "passwor" ++ [Ascii.ascii_of_nat 100]) in H.
  rewrite !app_assoc, !last_snoc in H. vm_compute in H. discriminate.
Qed.

(** X24: as long as React hands the two [UseIdForm]s different ids, the
    four inputs of the page have four different ids and every label points
    to the input that follows it; with one and the same id for both forms
    (a literal id instead of [useId]) the ids would clash. *)
Theorem useId_keeps_ids_apart (user1 user2 : string) :
  user1 ≠ user2 ->
  NoDup (inputIds (S := unit) (document user1 user2))
  ∧ labelTargets (S := unit) (document user1 user2)
    = inputIds (S := unit) (document user1 user2)
  ∧ ¬ NoDup (inputIds (S := unit) (document user1 user1)).
Proof.
  intros Hne.
  change (inputIds (S := unit) (document user1 user2))
    with [user1 +:+ "name"; user1 +:+ "password"; user2 +:+ "name"; user2 +:+ "password"].
  change (inputIds (S := unit) (document user1 user1))
    with [user1 +:+ "name"; user1 +:+ "password"; user1 +:+ "name"; user1 +:+ "password"].
  split; [| split; [reflexivity |]].
  - repeat (apply NoDup_cons_2); try apply NoDup_nil_2;
      rewrite ?not_elem_of_cons; repeat split;
      try apply not_elem_of_nil;
      try apply name_is_not_password;
      try (intros H; symmetry in H; by apply name_is_not_password in H).
    + intros H%append_suffix_inj. done.
    + intros H%append_suffix_inj. done.
  - intros [Hnot _]%NoDup_cons. apply Hnot.
    apply list_elem_of_further, list_elem_of_here.
Qed.

Lemma useId_keeps_ids_apart_witness :
  ":r0:" ≠ ":r1:"
  ∧ inputIds (S := unit) (document ":r0:" ":r1:")
    = [":r0:name"; ":r0:password"; ":r1:name"; ":r1:password"]
  ∧ NoDup (inputIds (S := unit) (document ":r0:" ":r1:")).
Proof.
  assert (H : ":r0:" ≠ ":r1:") by discriminate.
  split; [exact H |]. split; [reflexivity |].
  exact (proj1 (useId_keeps_ids_apart ":r0:" ":r1:" H)).
Defined.

End UseIdProperties.
(** ** UseRef *)

Section UseRefProperties.
Import UseRef.

Lemma times_cons (b b' : button) (bs : list button) :
  times b (b' :: bs) = (if decide (b' = b) then 1 else 0) + times b bs.
Proof. unfold times. rewrite filter_cons. by destruct (decide (b' = b)). Qed.

Lemma onClick_attached (b : button) (p : Page) :
  is_Some (inputRef p) -> is_Some (h1Ref p) ->
  ∃ q, onClick b p = Some q
       ∧ is_Some (inputRef q) ∧ is_Some (h1Ref q)
       ∧ inputVisible q = xorb (inputVisible p) (bool_decide (b = ToggleInput))
       ∧ changeH1 q = xorb (changeH1 p) (bool_decide (b = ChangeH1State)).
Proof.
  intros [el Hel] [h1 Hh1].
  destruct b; cbn [onClick];
    unfold handleRef, toggleRef, h1Handler, h1StateChanger, inputVisible;
    rewrite ?Hel, ?Hh1; cbn [mbind option_bind]; eexists; (split; [reflexivity |]);
    cbn [inputRef h1Ref changeH1 display]; rewrite ?Hel, ?Hh1;
    (split; [by eauto |]); (split; [by eauto |]).
  - by rewrite !xorb_false_r.
  - rewrite xorb_false_r. split; [| done].
    by destruct (String.eqb (display el) "none").
  - by rewrite !xorb_false_r.
  - rewrite xorb_false_r. split; [done |]. by destruct (changeH1 p).
Qed.

Lemma odd_times (b b' : button) (bs : list button) :
  Nat.odd (times b (b' :: bs)) = xorb (bool_decide (b' = b)) (Nat.odd (times b bs)).
Proof.
  rewrite times_cons. destruct (decide (b' = b)) as [-> | Hne].
  - rewrite bool_decide_eq_true_2 by done.
    change (1 + times b bs) with (S (times b bs)).
    rewrite Nat.odd_succ, <- Nat.negb_odd. by destruct (Nat.odd _).
  - by rewrite bool_decide_eq_false_2.
Qed.

Lemma clicks_attached (bs : list button) :
  ∀ p, is_Some (inputRef p) -> is_Some (h1Ref p) ->
       ∃ p', clicks bs p = Some p'
             ∧ inputVisible p' = xorb (inputVisible p) (Nat.odd (times ToggleInput bs))
             ∧ changeH1 p' = xorb (changeH1 p) (Nat.odd (times ChangeH1State bs)).
Proof.
  induction bs as [| b bs IH]; intros p Hinput Hh1.
  - exists p. by rewrite !xorb_false_r.
  - destruct (onClick_attached b p Hinput Hh1) as (q & Hq & Hqi & Hqh & Hv & Hc).
    destruct (IH q Hqi Hqh) as (p' & Hp' & Hv' & Hc').
    exists p'. cbn [clicks]. rewrite Hq. cbn [mbind option_bind].
    split; [exact Hp' |].
    rewrite Hv', Hc', Hv, Hc, !odd_times, !xorb_assoc. done.
Qed.

(** X25: once the refs are attached, no sequence of clicks on the four
    buttons makes a handler throw; the input is on screen exactly after
    an even number of clicks on 'Toggle INPUT', whatever else was clicked,
    and the second heading is red exactly after an odd number of clicks
    on 'Change H1 State'.  Before the refs are attached the three handlers
    that read a ref throw. *)
Theorem useRef_buttons (bs : list button) :
  (∃ p, clicks bs mounted = Some p
        ∧ inputVisible p = Nat.even (times ToggleInput bs)
        ∧ secondH1Color p
          = if Nat.odd (times ChangeH1State bs) then "red" else "green")
  ∧ handleRef beforeMount = None
  ∧ toggleRef beforeMount = None
  ∧ h1Handler beforeMount = None.
Proof.
  split; [| done].
  destruct (clicks_attached bs mounted) as (p & Hp & Hv & Hc); [by eexists.. |].
  exists p. split; [exact Hp |]. unfold secondH1Color. rewrite Hv, Hc.
  change (inputVisible mounted) with true. change (changeH1 mounted) with false.
  rewrite <- Nat.negb_odd. by destruct (Nat.odd _), (Nat.odd _).
Qed.

End UseRefProperties.
(** ** useWindowSize *)

Section UseWindowSizeProperties.
Import UseWindowSize.





End UseWindowSizeProperties.
(** ** UseTransition: submissions in flight *)

Section UseTransitionRunProperties.
Import UseTransitionRun.

Lemma step_one_in_flight (ev : event) (p : Page) :
  (inFlight p ≤ 1)%nat ∧ pending p = bool_decide (inFlight p = 1) ->
  (inFlight (step ev p) ≤ 1)%nat ∧ pending (step ev p) = bool_decide (inFlight (step ev p) = 1).
Proof.
  intros [Hle Hp]. destruct p as [pend n o]. cbn in *. subst pend.
  destruct ev, n as [| [| n]]; try lia; (split; [vm_compute; lia | reflexivity]).
Qed.

(** X27: the button of [UseTransition] is disabled while the transition
    is pending, so however the user clicks and whenever the timers fire,
    at most one submission is in flight; the flag is pending and the
    'LOADING...' heading is on screen exactly while one is. *)
Theorem one_submission_in_flight (evs : list event) :
  let p := run evs start in
  (inFlight p ≤ 1)%nat
  ∧ pending p = bool_decide (inFlight p = 1)
  ∧ loadingShown p = pending p.
Proof.
  cbn zeta.
  assert (∀ p, (inFlight p ≤ 1)%nat ∧ pending p = bool_decide (inFlight p = 1) ->
               (inFlight (run evs p) ≤ 1)%nat
               ∧ pending (run evs p) = bool_decide (inFlight (run evs p) = 1)) as Hrun.
  { induction evs as [| ev evs IH]; intros p Hp; [done |].
    cbn. by apply IH, step_one_in_flight. }
  destruct (Hrun start) as [Hle Hp]; [split; [cbn; lia | reflexivity] |].
  split; [exact Hle |]. split; [exact Hp |].
  unfold loadingShown. by destruct (pending (run evs start)).
Qed.

End UseTransitionRunProperties.
(** ** useUserData *)

Section UseUserDataProperties.
Import UseFetch UseUserData.

Lemma renders_sticky (same : json -> json -> bool) (later : list json) :
  (∀ a b, same a b = true -> a = b) ->
  ∀ data isAdmin,
    (roleIsAdmin data = true -> isAdmin = true) ->
    renders same data later isAdmin = isAdmin || existsb roleIsAdmin later.
Proof.
  intros Hsame. induction later as [| data' later IH]; intros data isAdmin Hdata.
  - cbn. by rewrite orb_false_r.
  - cbn [renders existsb]. rewrite IH.
    + unfold effect. destruct (same data data') eqn:Heq.
      * apply Hsame in Heq as <-.
        destruct (roleIsAdmin data); [by rewrite Hdata | done].
      * destruct (roleIsAdmin data'), isAdmin; done.
    + intros Hrole. unfold effect. destruct (same data data') eqn:Heq.
      * apply Hsame in Heq as <-. by apply Hdata.
      * by rewrite Hrole.
Qed.

(** X28: [isAdmin] of [useUserData] is only ever set to true.  Over the
    renders of a component it is true exactly when some data seen so far
    had the role 'admin': after an admin was loaded it stays true for
    every user loaded later. *)
Theorem isAdmin_is_sticky (same : json -> json -> bool) (data : json) (later : list json) :
  (∀ a b, same a b = true -> a = b) ->
  useUserData same data later = existsb roleIsAdmin (data :: later).
Proof.
  intros Hsame. unfold useUserData. rewrite renders_sticky; [| done |].
  - unfold effect. cbn [existsb]. by destruct (roleIsAdmin data).
  - unfold effect. by intros ->.
Qed.

Lemma isAdmin_is_sticky_witness :
  (∀ a b, (fun _ _ : json => false) a b = true -> a = b)
  ∧ useUserData (fun _ _ => false) JNull [admin; JNull; guest] = true.
Proof.
  assert (H : ∀ a b, (fun _ _ : json => false) a b = true -> a = b) by (by intros).
  split; [exact H |].
  exact (isAdmin_is_sticky (fun _ _ => false) JNull [admin; JNull; guest] H).
Defined.

End UseUserDataProperties.
(** ** ObjectState: what is on screen *)

Section ObjectStateRunProperties.
Import ObjectState ObjectStateRun.

Lemma lines_unfold (st : State) :
  lines st
  = [ "Name: " +:+ name st;
      "fullName: " +:+ fullName (details st);
      "City: " +:+ city (location (details st));
      "Country: " +:+ country (location (details st));
      "Primary Skill: " +:+ primarySkill st ].
Proof.
  unfold lines, primarySkill, document, ObjectState.ObjectState.
  destruct (skills (details st) !! 0) as [skill |]; reflexivity.
Qed.

(** X29: what [ObjectState] shows.  Typing into the name input changes the
    'fullName:' line to the text typed and no other line; a click on
    'Update Name' changes the 'Name:' line and no other; the two do not
    interfere, in either order. *)
Theorem ObjectState_lines (v : string) (st : State) :
  lines (typeName v st) = <[1 := "fullName: " +:+ v]> (lines st)
  ∧ lines (clickUpdateName st) = <[0 := "Name: Skyy 🧛🏻‍♂️"]> (lines st)
  ∧ typeName v (clickUpdateName st) = clickUpdateName (typeName v st).
Proof.
  rewrite !lines_unfold. repeat split.
Qed.

End ObjectStateRunProperties.
